(** * Demultiplexor (src/decombinator/demultiplex.py): a shallow embedding

    The script is a module-level Python program: it parses its arguments,
    runs two start-up checks, builds the index tables, and then loops over
    the zipped FASTQ streams.  The embedding keeps that shape:

    - Python values that may be [None] are [option]s;
    - an uncaught exception or a call to [sys.exit()] is a constructor of
      [result], threaded through the code by a small error monad;
    - a [dict] is an insertion-ordered association list with unique keys
      (Python dictionaries iterate in insertion order and the script walks
      [XXdict1.keys()]);
    - module-level names that some configurations never bind ([XXdict1],
      [XXdict], [failed1], ...) are [option] fields of the program state, and
      reading an unbound one raises [NameError];
    - the file system is a dictionary from path to text; text is ASCII.

    Output on stdout ([print]) is not part of the model. *)

From Stdlib Require Import String Ascii List ZArith Bool Arith Lia.
Import ListNotations.

Open Scope list_scope.
Open Scope string_scope.

(* ------------------------------------------------------------------ *)
(** ** Python run-time: exceptions, strings, dictionaries              *)
(* ------------------------------------------------------------------ *)

Module Py.

Inductive exn : Type :=
| NameError (name : string)
| TypeError
| IndexError
| ValueError
| KeyError (key : string)
| FileNotFoundError (path : string).

(** Outcome of running a piece of the script: a value, an uncaught
    exception, or [sys.exit()]. *)
Inductive result (A : Type) : Type :=
| Ok (a : A)
| Raise (e : exn)
| SysExit.

Arguments Ok {A} a.
Arguments Raise {A} e.
Arguments SysExit {A}.

Definition bind {A B : Type} (c : result A) (k : A -> result B) : result B :=
  match c with
  | Ok a => k a
  | Raise e => Raise e
  | SysExit => SysExit
  end.

(** Reading a name of the module namespace. *)
Definition lookup_name {A : Type} (name : string) (binding : option A) : result A :=
  match binding with
  | Some v => Ok v
  | None => Raise (NameError name)
  end.

(** An operation on a value that may be [None] ([None[6:12]], [str + None]). *)
Definition not_none {A : Type} (v : option A) : result A :=
  match v with
  | Some a => Ok a
  | None => Raise TypeError
  end.

(** [l[i]] on a list (non-negative [i]). *)
Definition list_item {A : Type} (l : list A) (i : nat) : result A :=
  match nth_error l i with
  | Some a => Ok a
  | None => Raise IndexError
  end.

(** [s[i]] on a string (non-negative [i]). *)
Definition str_item (s : string) (i : nat) : result ascii :=
  match String.get i s with
  | Some c => Ok c
  | None => Raise IndexError
  end.

(** Truth value of an optional command-line string: [None] and [""] are
    false. *)
Definition truthy (v : option string) : bool :=
  match v with
  | Some (String _ _) => true
  | _ => false
  end.

Definition LF : ascii := ascii_of_nat 10.
Definition CR : ascii := ascii_of_nat 13.
Definition NL : string := String LF EmptyString.

(** [s[i:j]] for [0 <= i <= j]; [s[i:]]. Both clamp at the end of [s]. *)
Definition slice (i j : nat) (s : string) : string := substring i (j - i) s.

Fixpoint slice_from (i : nat) (s : string) : string :=
  match i, s with
  | O, _ => s
  | S i', EmptyString => EmptyString
  | S i', String _ s' => slice_from i' s'
  end.

(** [s.split(sep)] for a one-character separator. *)
Fixpoint split (sep : ascii) (s : string) : list string :=
  match s with
  | EmptyString => [EmptyString]
  | String c s' =>
      if Ascii.eqb c sep then EmptyString :: split sep s'
      else match split sep s' with
           | h :: t => String c h :: t
           | [] => [String c EmptyString]
           end
  end.

Fixpoint lstrip (p : ascii -> bool) (s : string) : string :=
  match s with
  | EmptyString => EmptyString
  | String c s' => if p c then lstrip p s' else s
  end.

Fixpoint rstrip (p : ascii -> bool) (s : string) : string :=
  match s with
  | EmptyString => EmptyString
  | String c s' =>
      match rstrip p s' with
      | EmptyString => if p c then EmptyString else String c EmptyString
      | r => String c r
      end
  end.

(** ASCII characters for which [str.isspace()] holds. *)
Definition isspace (c : ascii) : bool :=
  let n := nat_of_ascii c in
  (Nat.leb 9 n && Nat.leb n 13) || (Nat.leb 28 n && Nat.leb n 32).

(** [s.strip()] and [s.strip("\n")]. *)
Definition strip (s : string) : string := rstrip isspace (lstrip isspace s).
Definition strip_newlines (s : string) : string :=
  rstrip (Ascii.eqb LF) (lstrip (Ascii.eqb LF) s).

(** [s.replace(old, new)] for a non-empty [old]: left to right, every
    non-overlapping occurrence.  [skip] counts the characters of a matched
    occurrence still to be passed over. *)
Fixpoint replace_from (old new : string) (s : string) (skip : nat) : string :=
  match s with
  | EmptyString => EmptyString
  | String c s' =>
      match skip with
      | S k => replace_from old new s' k
      | O =>
          if String.prefix old s
          then new ++ replace_from old new s' (String.length old - 1)
          else String c (replace_from old new s' 0)
      end
  end.

Definition replace (old new s : string) : string := replace_from old new s 0.

(** Iterating over a file opened in text mode: universal newlines ("\r\n"
    and "\r" read as "\n"); each line keeps its terminator; a last line
    without terminator is yielded as it is.  [line] is the line read so
    far and [after_cr] says that the previous character was a "\r". *)
Fixpoint iter_lines (text : string) (line : string) (after_cr : bool) : list string :=
  match text with
  | EmptyString =>
      match line with
      | EmptyString => []
      | _ => [line]
      end
  | String c rest =>
      if Ascii.eqb c LF then
        if after_cr then iter_lines rest line false
        else (line ++ NL) :: iter_lines rest EmptyString false
      else if Ascii.eqb c CR then
        (line ++ NL) :: iter_lines rest EmptyString true
      else iter_lines rest (line ++ String c EmptyString) false
  end.

Definition file_lines (text : string) : list string :=
  iter_lines text EmptyString false.

End Py.

Import Py.

Notation "x <- c ;; k" := (Py.bind c (fun x => k))
  (at level 61, c at next level, right associativity).
Notation "' pat <- c ;; k" := (Py.bind c (fun x => match x with pat => k end))
  (at level 61, pat pattern, c at next level, right associativity).

(** Insertion-ordered dictionaries with string keys. *)
Module PyDict.

Section Dict.
Context {V : Type}.

Definition t := list (string * V).

Definition empty : t := [].

(** [d.get(k)]: the entry under [k], if any. *)
Fixpoint get (d : t) (k : string) : option V :=
  match d with
  | [] => None
  | (k', v) :: d' => if String.eqb k' k then Some v else get d' k
  end.

(** [k in d]. *)
Definition contains (d : t) (k : string) : bool :=
  match get d k with
  | Some _ => true
  | None => false
  end.

(** [d[k]]. *)
Definition item (d : t) (k : string) : result V :=
  match get d k with
  | Some v => Ok v
  | None => Raise (KeyError k)
  end.

(** [d[k] = v]: an existing key keeps its position. *)
Fixpoint set (d : t) (k : string) (v : V) : t :=
  match d with
  | [] => [(k, v)]
  | (k', v') :: d' =>
      if String.eqb k' k then (k', v) :: d' else (k', v') :: set d' k v
  end.

Definition keys (d : t) : list string := map fst d.
Definition values (d : t) : list V := map snd d.


End Dict.

Arguments t V : clear implicits.

End PyDict.

(** [collections.Counter]: a dictionary of integers whose missing keys read
    as 0. *)
Module Counter.

Definition t := PyDict.t Z.

Definition count (c : t) (k : string) : Z :=
  match PyDict.get c k with
  | Some n => n
  | None => 0%Z
  end.

(** [c[k] += 1]. *)
Definition incr (c : t) (k : string) : t := PyDict.set c k (count c k + 1)%Z.

(** Sum of all counts. *)
Definition total (c : t) : Z := fold_right Z.add 0%Z (PyDict.values c).

End Counter.

(** The file system: path to text.  Opening, writing and closing never
    fail here except for reading a path that does not exist. *)
Module FS.

Definition t := PyDict.t string.

(** [open(path)] for reading, then iterating over it. *)
Definition read_lines (fs : t) (path : string) : result (list string) :=
  match PyDict.get fs path with
  | Some text => Ok (file_lines text)
  | None => Raise (FileNotFoundError path)
  end.

(** [open(path, "w")]: create or truncate. *)
Definition open_w (fs : t) (path : string) : t := PyDict.set fs path EmptyString.

(** [open(path, "a")]: create if missing. *)
Definition open_a (fs : t) (path : string) : t :=
  if PyDict.contains fs path then fs else PyDict.set fs path EmptyString.

Definition content (fs : t) (path : string) : string :=
  match PyDict.get fs path with
  | Some text => text
  | None => EmptyString
  end.

(** Writing through a handle on [path]: the text goes to the end. *)
Definition write (fs : t) (path : string) (text : string) : t :=
  PyDict.set fs path (content fs path ++ text).

End FS.

(* ------------------------------------------------------------------ *)
(** ** The two libraries the script calls                              *)
(* ------------------------------------------------------------------ *)

(** [Levenshtein.distance]: the edit distance with unit costs for
    insertion, deletion and substitution. *)
Module Levenshtein.

Definition cost (x y : ascii) : nat := if Ascii.eqb x y then 0 else 1.

(** The defining recurrence. *)
Fixpoint lev (a : string) : string -> nat :=
  fix lev_a (b : string) : nat :=
    match a, b with
    | EmptyString, _ => String.length b
    | _, EmptyString => String.length a
    | String x a', String y b' =>
        Nat.min (S (lev a' b)) (Nat.min (S (lev_a b')) (lev a' b' + cost x y))
    end.

(** The same number by dynamic programming (Wagner and Fischer), one row
    at a time.  The row of [a] lists the distance from [a] to every suffix
    of [b], longest suffix first. *)
Fixpoint base_row (b : string) : list nat :=
  match b with
  | EmptyString => [0]
  | String _ b' => let r := base_row b' in S (hd 0 r) :: r
  end.

Fixpoint next_row (x : ascii) (b : string) (old : list nat) : list nat :=
  match b, old with
  | String y b', o :: old' =>
      let r := next_row x b' old' in
      Nat.min (S o) (Nat.min (S (hd 0 r)) (hd 0 old' + cost x y)) :: r
  | _, o :: _ => [S o]
  | _, [] => []
  end.

Fixpoint row (a b : string) : list nat :=
  match a with
  | EmptyString => base_row b
  | String x a' => next_row x b (row a' b)
  end.

Definition distance (a b : string) : nat := hd 0 (row a b).


End Levenshtein.

(** [Bio.Seq.Seq(x).reverse_complement()]: the sequence read backwards, every
    letter sent through Biopython's DNA complement table.  The table is made
    as [bytes.maketrans] makes it, from the IUPAC letters and their
    complements in both cases, with U read as T; a character that is no key
    stays. *)
Module Bio.

Definition iupac_letters : string := "ACGTMRWSYKVHDBXN".
Definition iupac_complements : string := "TGCAKYWSRMBDHVXN".

(** [c] through the table that sends the i-th character of [keys] to the
    i-th character of [values]. *)
Fixpoint translate (keys values : string) (c : ascii) : ascii :=
  match keys, values with
  | String k keys', String v values' =>
      if Ascii.eqb c k then v else translate keys' values' c
  | _, _ => c
  end.

Definition complement_base (c : ascii) : ascii :=
  translate (iupac_letters ++ "U" ++ "acgtmrwsykvhdbxn" ++ "u")
            (iupac_complements ++ "A" ++ "tgcakywsrmbdhvxn" ++ "a") c.

(** Reversal with complement, accumulating the reversed prefix. *)
Fixpoint revcomp_onto (x acc : string) : string :=
  match x with
  | EmptyString => acc
  | String c x' => revcomp_onto x' (String (complement_base c) acc)
  end.

Definition reverse_complement (x : string) : string := revcomp_onto x EmptyString.

End Bio.

(* ------------------------------------------------------------------ *)
(** ** demultiplex.py                                                  *)
(* ------------------------------------------------------------------ *)

Module Demultiplex.

(** [inputargs]: the command-line values read before and inside the main
    loop.  (The flags that only steer printing, compression and the
    summary files are left out.) *)
Record args : Type := mkArgs {
  read1 : string;
  read2 : string;
  index1 : string;
  index2 : option string;
  indexlist : option string;
  threshold : Z;
  outputall : bool;
  extension : string
}.

(** What [readfq] yields: [(name, seq, qual)], with [qual = None] for a
    FASTA record or a quality block cut short by the end of the file. *)
Record read : Type := mkRead {
  name : string;
  seq : string;
  qual : option string
}.

(** One element of [zipfqs]. *)
Inductive read_tuple : Type :=
| Tuple3 (record1 record2 record3 : read)
| Tuple4 (record1 record2 record3 record4 : read).

(** Values stored in [XXdict1] and [XXdict]: a file name (a [str]) or an
    open file object. *)
Inductive pyval : Type :=
| Str (s : string)
| FileObj (path : string).

(** The module-level names that the table-building code may bind. *)
Record tables : Type := mkTables {
  XXdict1 : option (PyDict.t pyval);
  XXdict : option (PyDict.t pyval);
  usedindexes : option (PyDict.t string);
  failed : option string;
  failed1 : option string;
  failed2 : option string;
  sample_names : option (list string)
}.

(** The program state: the names above, the counter of reads per output,
    the file system, and the variables of the [__main__] block. *)
Record state : Type := mkState {
  names : tables;
  outputreads : option Counter.t;
  fs : FS.t;
  count : Z;
  dmpd_count : Z;
  fuzzy_count : Z;
  clash_count : Z;
  fuzzies : list string
}.

(** *** fastq_check *)

(** [infile] is opened through [gzip.open] or [open] according to its
    name; either way the first four lines of its text are taken. *)
Definition fastq_check (files : FS.t) (infile : string) : result bool :=
  let success := true in
  lines <- FS.read_lines files infile ;;
  let read := firstn 4 lines in
  (* @ check *)
  read_0 <- list_item read 0 ;;
  c <- str_item read_0 0 ;;
  let success := if negb (Ascii.eqb c "@") then false else success in
  (* Descriptor check *)
  read_2 <- list_item read 2 ;;
  c <- str_item read_2 0 ;;
  let success := if negb (Ascii.eqb c "+") then false else success in
  (* Read/quality match check *)
  read_1 <- list_item read 1 ;;
  read_3 <- list_item read 3 ;;
  let success :=
    if negb (Nat.eqb (String.length read_1) (String.length read_3))
    then false else success in
  Ok success.

(** *** readfq *)

(** [l[:-1]]. *)
Fixpoint drop_last (l : string) : string :=
  match l with
  | EmptyString => EmptyString
  | String c EmptyString => EmptyString
  | String c l' => String c (drop_last l')
  end.

(** [l[0] in chars] for a line [l] of a file (never empty). *)
Definition first_char_in (chars : string) (l : string) : bool :=
  match l with
  | EmptyString => false
  | String c _ => existsb (Ascii.eqb c) (list_ascii_of_string chars)
  end.

(** [last[1:].partition(" ")[0]]. *)
Definition header_name (last : string) : string :=
  hd EmptyString (split " " (slice_from 1 last)).

(** Where the generator stands between two lines of [fp]: looking for the
    next header ([last] is empty), collecting the sequence lines of the
    record called [name], or collecting its quality lines ([last] is the
    "+" line, [leng] characters of quality read so far). *)
Inductive readfq_state : Type :=
| Seeking
| InSequence (name : string) (seqs : list string)
| InQuality (name seq : string) (leng : nat) (seqs : list string).

Definition join (seqs : list string) : string := String.concat EmptyString seqs.

(** The records [readfq] yields on the lines that are left. *)
Fixpoint readfq_from (fp : list string) (s : readfq_state) : list read :=
  match fp with
  | [] =>
      match s with
      | Seeking => []
      | InSequence name seqs => [mkRead name (join seqs) None]
      | InQuality name seq _ _ => [mkRead name seq None]
      end
  | l :: fp' =>
      match s with
      | Seeking =>
          if first_char_in ">@" l then
            match drop_last l with
            | EmptyString => []
            | last => readfq_from fp' (InSequence (header_name last) [])
            end
          else readfq_from fp' Seeking
      | InSequence name seqs =>
          if first_char_in "@+>" l then
            match drop_last l with
            | EmptyString => [mkRead name (join seqs) None]
            | String c _ as last =>
                if negb (Ascii.eqb c "+") then
                  mkRead name (join seqs) None
                  :: readfq_from fp' (InSequence (header_name last) [])
                else readfq_from fp' (InQuality name (join seqs) 0 [])
            end
          else readfq_from fp' (InSequence name (seqs ++ [drop_last l])%list)
      | InQuality name seq leng seqs =>
          let seqs := (seqs ++ [drop_last l])%list in
          let leng := leng + (String.length l - 1) in
          if Nat.leb (String.length seq) leng then
            mkRead name seq (Some (join seqs)) :: readfq_from fp' Seeking
          else readfq_from fp' (InQuality name seq leng seqs)
      end
  end.

(** [readfq(open(path))], read to the end. *)
Definition readfq (files : FS.t) (path : string) : result (list read) :=
  fp <- FS.read_lines files path ;;
  Ok (readfq_from fp Seeking).

(** *** revcomp *)

Definition revcomp (x : string) : string := Bio.reverse_complement x.

(** *** read_index_dual_file *)

(** The body of [for line in open(inputargs["indexlist"], "r")]. *)
Fixpoint dual_rows (suffix : string) (lines : list string)
    (XXdict1 : PyDict.t pyval) (outputreads : Counter.t)
    (usedindexes : PyDict.t string)
  : result (PyDict.t pyval * Counter.t * PyDict.t string) :=
  match lines with
  | [] => Ok (XXdict1, outputreads, usedindexes)
  | line :: rest =>
      if String.eqb line NL then Ok (XXdict1, outputreads, usedindexes)
      else
        let elements := map strip (split "," line) in
        sample <- list_item elements 0 ;;
        (* note reverse complement of index one *)
        elements_1 <- list_item elements 1 ;;
        let index1 := revcomp elements_1 in
        index2 <- list_item elements 2 ;;
        let compound_index := index2 ++ index1 in
        dual_rows suffix rest
          (PyDict.set XXdict1 compound_index (Str (sample ++ "_R1" ++ suffix)))
          (PyDict.set outputreads sample 0%Z)
          (PyDict.set usedindexes sample compound_index)
  end.

(** Returns [XXdict1, outputreads, usedindexes, failed1, failed2] and the
    file system it leaves. *)
Definition read_index_dual_file (inputargs : args) (files : FS.t)
  : result (PyDict.t pyval * Counter.t * PyDict.t string * string * string * FS.t) :=
  let suffix := "." ++ extension inputargs in
  let failed1 := "Undetermined_R1" ++ suffix in
  let files := FS.open_w files failed1 in
  let failed2 := "Undetermined_R2" ++ suffix in
  let files := FS.open_w files failed2 in
  let outputreads := PyDict.set PyDict.empty "Undetermined" 0%Z in
  path <- not_none (indexlist inputargs) ;;
  lines <- FS.read_lines files path ;;
  ' (XXdict1, outputreads, usedindexes) <-
      dual_rows suffix lines PyDict.empty outputreads PyDict.empty ;;
  Ok (XXdict1, outputreads, usedindexes, failed1, failed2, files).

(** *** The index tables *)

(** SP1 index = R1 (RC1 proximal index). *)
Definition X1dict : PyDict.t string :=
  [ ("1", "ATCACG"); ("2", "CGATGT"); ("3", "TTAGGC"); ("4", "TGACCA");
    ("5", "ACAGTG"); ("6", "GCCAAT"); ("7", "CAGATC"); ("8", "ACTTGA");
    ("9", "GATCAG"); ("10", "TAGCTT"); ("11", "GGCTAC"); ("12", "CTTGTA");
    ("13", "TAGACT") ].

(** SP2 index = R2 (index read, comes first in the rearranged sequence). *)
Definition X2dict : PyDict.t string :=
  [ ("1", "CGTGAT"); ("2", "ACATCG"); ("3", "GCCTAA"); ("4", "TGGTCA");
    ("5", "CACTGT"); ("6", "ATTGGC"); ("7", "GATCTG"); ("8", "TCAAGT");
    ("9", "CTGATC"); ("10", "AAGCTA"); ("11", "GTAGCC"); ("12", "TACAAG");
    ("13", "TTGACT"); ("14", "GGAACT"); ("15", "CCTGGTAG");
    ("16", "TAAGCATG"); ("17", "AGATGTGC"); ("18", "GTCGAGCA");
    ("19", "GAATTGCT"); ("20", "AAGCAACT"); ("21", "CTAACTGG");
    ("22", "AGGCTCAA"); ("23", "CAGTTGGT"); ("24", "TCTGGACC");
    ("25", "TGTTATAC"); ("26", "TCAGCGAA"); ("27", "ACATAGCG");
    ("28", "TGTGCTTA"); ("29", "GATGTTAC"); ("30", "GTCTTAGT");
    ("31", "GAGTTACA"); ("32", "CCATTGTT"); ("33", "TGCGAAGG");
    ("34", "CAACGGTC"); ("35", "CTTGCAGA"); ("36", "AGGATGTG");
    ("37", "TAGATCCT"); ("38", "TAGATGAC"); ("39", "CTAGGTTC");
    ("40", "GTGCGTAA"); ("41", "TCGCACCT"); ("42", "CGATCATG");
    ("43", "GTTGCGGC"); ("44", "AGATATAA"); ("45", "CGCCACAG");
    ("46", "AATGCGTT"); ("47", "GTCAAGTT"); ("48", "GGAAGGCG");
    ("49", "TCCTGGTC"); ("50", "ACCAAGGA"); ("51", "AGTGTCTT");
    ("52", "GATTACAG"); ("53", "ACTTCTTC"); ("54", "GTTCATTA");
    ("55", "TTGCTGGA"); ("56", "CTGTGGAC"); ("57", "GACTATTG");
    ("58", "CCTTACCT"); ("59", "GCTAAGTA"); ("60", "CTTCCTTC");
    ("61", "TCGCTATG"); ("62", "CAGACAAT"); ("63", "GAGAGTTG");
    ("64", "CCTAGAAT"); ("65", "CAGCAGCA"); ("66", "GGCTAGGC");
    ("67", "GGCATAGG"); ("68", "GACGCTAT"); ("69", "ATCCGACA");
    ("70", "TTACTGTC"); ("71", "TCGACGGC"); ("72", "CCTGGATA");
    ("73", "AACATAAT"); ("74", "AATGTTGG"); ("75", "TGGATATC");
    ("76", "TACTTGCA"); ("77", "AGAACATT"); ("78", "TACCGCTG");
    ("79", "AGAGGAAT"); ("80", "ATCCGCAG"); ("81", "CATCAGAC");
    ("82", "GGCAGATA"); ("83", "GATCGTGT"); ("84", "AGCTCTGG");
    ("85", "GTTAGGTC"); ("86", "CAAGGCGA"); ("87", "ATGGTAGG");
    ("88", "TCTAGCGA"); ("89", "ACATCCTT"); ("90", "CGAGTTAG");
    ("91", "ATACCTGT"); ("92", "GACCGAGA"); ("93", "TCAACTGT");
    ("94", "ACGCATAG"); ("95", "GGCTCCTG"); ("96", "TGCGACCT");
    ("97", "CCTTGCTG"); ("98", "TTGATAAT"); ("99", "CTGATTAA");
    ("100", "TGGTAACG"); ("101", "CTCTACTT"); ("102", "CTATTCAA") ].

(** *** read_index_single_file *)

(** The body of [for x in indexes]. *)
Fixpoint single_rows (suffix : string) (indexes : list string)
    (files : FS.t) (XXdict : PyDict.t pyval) (outputreads : Counter.t)
    (usedindexes : PyDict.t string)
  : result (PyDict.t pyval * Counter.t * PyDict.t string * FS.t) :=
  match indexes with
  | [] => Ok (XXdict, outputreads, usedindexes, files)
  | x :: rest =>
      if String.eqb x NL then Ok (XXdict, outputreads, usedindexes, files)
      else
        let elements := split "," (strip_newlines x) in
        sample <- list_item elements 0 ;;
        let files := FS.open_w files (sample ++ suffix) in
        elements_1 <- list_item elements 1 ;;
        x1 <- PyDict.item X1dict elements_1 ;;
        elements_2 <- list_item elements 2 ;;
        x2 <- PyDict.item X2dict elements_2 ;;
        let compound_index := x1 ++ x2 in
        let files := FS.open_a files (sample ++ suffix) in
        single_rows suffix rest files
          (PyDict.set XXdict compound_index (FileObj (sample ++ suffix)))
          (PyDict.set outputreads sample 0%Z)
          (PyDict.set usedindexes sample compound_index)
  end.

(** Returns [XXdict, outputreads, usedindexes, failed] and the file system
    it leaves. *)
Definition read_index_single_file (inputargs : args) (files : FS.t)
  : result (PyDict.t pyval * Counter.t * PyDict.t string * string * FS.t) :=
  let suffix := "." ++ extension inputargs in
  let failed := "Undetermined" ++ suffix in
  let files := FS.open_w files failed in
  let outputreads := PyDict.set PyDict.empty "Undetermined" 0%Z in
  path <- not_none (indexlist inputargs) ;;
  indexes <- FS.read_lines files path ;;
  ' (XXdict, outputreads, usedindexes, files) <-
      single_rows suffix indexes files PyDict.empty outputreads PyDict.empty ;;
  Ok (XXdict, outputreads, usedindexes, failed, files).

(** *** Module level: the start-up checks *)

(** [for f in [read1, read2, index1]: if fastq_check(f) == False: sys.exit()] *)
Fixpoint check_inputs (files : FS.t) (fl : list string) : result unit :=
  match fl with
  | [] => Ok tt
  | f :: rest =>
      ok <- fastq_check files f ;;
      if Bool.eqb ok false then SysExit else check_inputs files rest
  end.

Definition startup_checks (inputargs : args) (files : FS.t) : result unit :=
  if Bool.eqb (outputall inputargs) false && negb (truthy (indexlist inputargs))
  then SysExit
  else check_inputs files [read1 inputargs; read2 inputargs; index1 inputargs].

(** *** Module level: the sample-named output files *)

Definition unbound : tables := mkTables None None None None None None None.

(** The state in which the table-building code starts. *)
Definition initial_state (files : FS.t) : state :=
  mkState unbound None files 0 0 0 0 [].

Definition allXcombs : list string :=
  flat_map (fun x => map (fun y => x ++ "-" ++ y) (PyDict.keys X2dict))
           (PyDict.keys X1dict).

(** The body of [for x in allXcombs]. *)
Fixpoint outputall_rows (suffix : string) (combs : list string) (st : state)
  : result state :=
  match combs with
  | [] => Ok st
  | x :: rest =>
      let parts := split "-" x in
      part_0 <- list_item parts 0 ;;
      x1 <- PyDict.item X1dict part_0 ;;
      part_1 <- list_item parts 1 ;;
      x2 <- PyDict.item X2dict part_1 ;;
      let compound_index := x1 ++ x2 in
      used <- lookup_name "usedindexes" (usedindexes (names st)) ;;
      if negb (existsb (String.eqb compound_index) (PyDict.values used)) then
        let files := FS.open_a (fs st) ("Indexes_" ++ x ++ suffix) in
        XXd <- lookup_name "XXdict1" (XXdict1 (names st)) ;;
        outr <- lookup_name "outputreads" (outputreads st) ;;
        let nm := names st in
        outputall_rows suffix rest
          (mkState
             (mkTables
                (Some (PyDict.set XXd compound_index
                         (FileObj ("Indexes_" ++ x ++ suffix))))
                (XXdict nm)
                (Some (PyDict.set used ("Indexes_" ++ x) compound_index))
                (failed nm) (failed1 nm) (failed2 nm) (sample_names nm))
             (Some (PyDict.set outr ("Indexes_" ++ x) 0%Z))
             files
             (count st) (dmpd_count st) (fuzzy_count st) (clash_count st)
             (fuzzies st))
      else outputall_rows suffix rest st
  end.

(** Lines 511 to 546, and the initialisation of the counters that opens
    the [__main__] block. *)
Definition build_tables (inputargs : args) (files : FS.t) : result state :=
  let suffix := "." ++ extension inputargs in
  st <-
    (if truthy (indexlist inputargs) then
       if truthy (index2 inputargs) then
         ' (XXdict1, outputreads, usedindexes, failed1, failed2, files) <-
             read_index_dual_file inputargs files ;;
         let sample_names := PyDict.keys outputreads in
         Ok (mkState
               (mkTables (Some XXdict1) None (Some usedindexes) None
                  (Some failed1) (Some failed2) (Some sample_names))
               (Some outputreads) files 0 0 0 0 [])
       else
         ' (XXdict, outputreads, usedindexes, failed, files) <-
             read_index_single_file inputargs files ;;
         Ok (mkState
               (mkTables None (Some XXdict) (Some usedindexes) (Some failed)
                  None None None)
               (Some outputreads) files 0 0 0 0 [])
     else Ok (initial_state files)) ;;
  if Bool.eqb (outputall inputargs) true
  then outputall_rows suffix allXcombs st
  else Ok st.

(** *** The main loop *)

(** [open(v, "a")]: the argument must be a path. *)
Definition open_append (v : pyval) : result string :=
  match v with
  | Str path => Ok path
  | FileObj _ => Raise TypeError
  end.

Section Loop.

(** [lev.distance], and the parsed arguments. *)
Variable lev_distance : string -> string -> nat.
Variable inputargs : args.

(** The keys of the table within [threshold] of [seqX], in the table's
    order. *)
Definition fuzzy_matches (XXd : PyDict.t pyval) (seqX : string) : list string :=
  filter (fun ndx => Z.leb (Z.of_nat (lev_distance ndx seqX)) (threshold inputargs))
         (PyDict.keys XXd).

(** The tuple unpacking that opens the loop body. *)
Definition unpack (records : read_tuple) : result unit :=
  match truthy (index2 inputargs), records with
  | true, Tuple4 _ _ _ _ => Ok tt
  | false, Tuple3 _ _ _ => Ok tt
  | _, _ => Raise ValueError
  end.

(** The two [if len(records) == ...] blocks: they leave [seqX] and, for
    four reads only, [new_record1] and [new_record2]. *)
Definition format_records (records : read_tuple)
  : result (string * option string * option string) :=
  match records with
  | Tuple3 record1 record2 record3 =>
      let fq_id := name record1 in
      let Nseq := slice 0 45 (seq record3) in
      qual3 <- not_none (qual record3) ;;
      let Nqual := slice 0 45 qual3 in
      let X1seq := slice 6 12 (seq record1) in
      qual1 <- not_none (qual record1) ;;
      let X1qual := slice 6 12 qual1 in
      let X2seq := seq record2 in
      let X2qual := qual record2 in
      let readseq := slice_from 12 (seq record1) in
      let readqual := slice_from 12 qual1 in
      let fq_seq := Nseq ++ X1seq ++ X2seq ++ readseq in
      qual2 <- not_none X2qual ;;
      let fq_qual := Nqual ++ X1qual ++ qual2 ++ readqual in
      let new_record :=
        "@" ++ fq_id ++ NL ++ fq_seq ++ NL ++ "+" ++ NL ++ fq_qual ++ NL in
      let seqX := X1seq ++ X2seq in
      Ok (seqX, None, None)
  | Tuple4 record1 record2 record3 record4 =>
      let fq_id := name record1 in
      let X1seq := seq record4 in
      let X2seq := seq record2 in
      qual1 <- not_none (qual record1) ;;
      let new_record1 :=
        "@" ++ fq_id ++ NL ++ seq record1 ++ NL ++ "+" ++ NL ++ qual1 ++ NL in
      qual3 <- not_none (qual record3) ;;
      let new_record2 :=
        "@" ++ fq_id ++ NL ++ seq record3 ++ NL ++ "+" ++ NL ++ qual3 ++ NL in
      let seqX := X1seq ++ X2seq in
      Ok (seqX, Some new_record1, Some new_record2)
  end.

(** The first record of the tuple. *)
Definition first_record (records : read_tuple) : read :=
  match records with
  | Tuple3 record1 _ _ => record1
  | Tuple4 record1 _ _ _ => record1
  end.

(** One iteration of [for records in zipfqs]. *)
Definition loop_body (st : state) (records : read_tuple) : result state :=
  _ <- unpack records ;;
  let count := (count st + 1)%Z in
  let fq_id := name (first_record records) in
  ' (seqX, new_record1, new_record2) <- format_records records ;;
  XXd <- lookup_name "XXdict1" (XXdict1 (names st)) ;;
  if PyDict.contains XXd seqX then
    (* Exact index matches *)
    v <- PyDict.item XXd seqX ;;
    path_1 <- open_append v ;;
    let files := FS.open_a (fs st) path_1 in
    rec1 <- lookup_name "new_record1" new_record1 ;;
    let files := FS.write files path_1 rec1 in
    let path_2 := replace "R1.f" "R2.f" path_1 in
    let files := FS.open_a files path_2 in
    rec2 <- lookup_name "new_record2" new_record2 ;;
    let files := FS.write files path_2 rec2 in
    let dmpd_count := (dmpd_count st + 1)%Z in
    outr <- lookup_name "outputreads" (outputreads st) ;;
    Ok (mkState (names st) (Some (Counter.incr outr path_1)) files
          count dmpd_count (fuzzy_count st) (clash_count st) (fuzzies st))
  else
    (* Otherwise allow fuzzy matching *)
    let matches := fuzzy_matches XXd seqX in
    if Nat.eqb (List.length matches) 1 then
      (* Only allow fuzzy match if there is one candidate match within
         threshold *)
      matches_0 <- list_item matches 0 ;;
      v <- PyDict.item XXd matches_0 ;;
      path_1 <- open_append v ;;
      let files := FS.open_a (fs st) path_1 in
      let path_2 := replace "R1.f" "R2.f" path_1 in
      let files := FS.open_a files path_2 in
      rec1 <- lookup_name "new_record1" new_record1 ;;
      let files := FS.write files path_1 rec1 in
      rec2 <- lookup_name "new_record2" new_record2 ;;
      let files := FS.write files path_2 rec2 in
      let dmpd_count := (dmpd_count st + 1)%Z in
      let fuzzy_count := (fuzzy_count st + 1)%Z in
      let fuzzies := (fuzzies st ++ [fq_id])%list in
      outr <- lookup_name "outputreads" (outputreads st) ;;
      Ok (mkState (names st) (Some (Counter.incr outr path_1)) files
            count dmpd_count fuzzy_count (clash_count st) fuzzies)
    else
      let clash_count :=
        if Nat.ltb 1 (List.length matches)
        then (clash_count st + 1)%Z else clash_count st in
      out1 <- lookup_name "failed1" (failed1 (names st)) ;;
      rec1 <- lookup_name "new_record1" new_record1 ;;
      let files := FS.write (fs st) out1 rec1 in
      out2 <- lookup_name "failed2" (failed2 (names st)) ;;
      rec2 <- lookup_name "new_record2" new_record2 ;;
      let files := FS.write files out2 rec2 in
      outr <- lookup_name "outputreads" (outputreads st) ;;
      Ok (mkState (names st) (Some (Counter.incr outr "Undetermined")) files
            count (dmpd_count st) (fuzzy_count st) clash_count (fuzzies st)).

(** [for records in zipfqs]. *)
Fixpoint for_loop (st : state) (zipfqs : list read_tuple) : result state :=
  match zipfqs with
  | [] => Ok st
  | records :: rest =>
      st' <- loop_body st records ;;
      for_loop st' rest
  end.

(** [zip(fq1, fq2, fq3)] and [zip(fq1, fq2, fq3, fq4)] on the reads the
    four [readfq] generators yield. *)
Fixpoint zip3 (fq1 fq2 fq3 : list read) : list read_tuple :=
  match fq1, fq2, fq3 with
  | r1 :: fq1', r2 :: fq2', r3 :: fq3' => Tuple3 r1 r2 r3 :: zip3 fq1' fq2' fq3'
  | _, _, _ => []
  end.

Fixpoint zip4 (fq1 fq2 fq3 fq4 : list read) : list read_tuple :=
  match fq1, fq2, fq3, fq4 with
  | r1 :: fq1', r2 :: fq2', r3 :: fq3', r4 :: fq4' =>
      Tuple4 r1 r2 r3 r4 :: zip4 fq1' fq2' fq3' fq4'
  | _, _, _, _ => []
  end.

(** The main loop on the four streams ([fq4] is read in dual-index mode
    only). *)
Definition main_loop (st : state) (fq1 fq2 fq3 fq4 : list read) : result state :=
  let zipfqs :=
    if truthy (index2 inputargs) then zip4 fq1 fq2 fq3 fq4
    else zip3 fq1 fq2 fq3 in
  for_loop st zipfqs.

End Loop.

(** The whole script up to the end of the main loop.  The input files are
    read as the table-building code leaves the file system. *)
Definition demultiplex (lev_distance : string -> string -> nat)
    (inputargs : args) (files : FS.t) : result state :=
  _ <- startup_checks inputargs files ;;
  st <- build_tables inputargs files ;;
  fq1 <- readfq (fs st) (read1 inputargs) ;;
  fq2 <- readfq (fs st) (index1 inputargs) ;;
  fq3 <- readfq (fs st) (read2 inputargs) ;;
  fq4 <-
    (if truthy (index2 inputargs) then
       path <- not_none (index2 inputargs) ;;
       readfq (fs st) path
     else Ok []) ;;
  main_loop lev_distance inputargs st fq1 fq2 fq3 fq4.

(** The lines of the sample table that [read_index_dual_file] and
    [read_index_single_file] get to: those before the first empty line. *)
Fixpoint rows_read (lines : list string) : list string :=
  match lines with
  | [] => []
  | line :: rest => if String.eqb line NL then [] else line :: rows_read rest
  end.

End Demultiplex.

Import Demultiplex.

(** Vocabulary of the statements below. *)

(** The standard four-line FASTQ text of a read. *)
Definition fastq_text (id sequence quality : string) : string :=
  "@" ++ id ++ NL ++ sequence ++ NL ++ "+" ++ NL ++ quality ++ NL.

(** The name under which the second payload read of a sample is written. *)
Definition R2_path (path : string) : string := replace "R1.f" "R2.f" path.

(** A counter in which no read has been counted yet. *)
Definition all_zero (c : Counter.t) : Prop :=
  forall n, In n (PyDict.values c) -> n = 0%Z.

(** A line of the sample table stands for the compound index [key] in
    dual-index mode: its second and third comma-separated fields, stripped,
    are [id1] and [id2], and [key] is [id2] followed by the reverse
    complement of [id1]. *)
Definition row_has_key (line key : string) : Prop :=
  exists sample id1 id2 more,
    map strip (split "," line) = sample :: id1 :: id2 :: more /\
    key = id2 ++ revcomp id1.

(** A small run in dual-index mode, used to exercise the statements: two
    samples whose compound indexes differ in the last base. *)
Module Dual.

Definition samples_csv : string :=
  "S1,GGGGGG,AAAAAA" ++ NL ++ "S2,CGGGGG,AAAAAA" ++ NL.

Definition one_read_fastq (id bases quality : string) : string :=
  "@" ++ id ++ NL ++ bases ++ NL ++ "+" ++ NL ++ quality ++ NL.

Definition files : FS.t :=
  [ ("R1.fq", one_read_fastq "read1 1:N:0" "ACGTAC" "IIIIII");
    ("R2.fq", one_read_fastq "read1 2:N:0" "TTGGCC" "JJJJJJ");
    ("I1.fq", one_read_fastq "read1 1:N:0" "CCCCCT" "FFFFFF");
    ("I2.fq", one_read_fastq "read1 2:N:0" "AAAAAA" "FFFFFF");
    ("samples.csv", samples_csv) ].

Definition inputargs (t : Z) : args :=
  mkArgs "R1.fq" "R2.fq" "I1.fq" (Some "I2.fq") (Some "samples.csv") t false "fq".

(** The state in which the main loop starts. *)
Definition start : state :=
  match build_tables (inputargs 2) files with
  | Ok st => st
  | _ => initial_state files
  end.

Definition XXd : PyDict.t pyval :=
  [ ("AAAAAACCCCCC", Str "S1_R1.fq"); ("AAAAAACCCCCG", Str "S2_R1.fq") ].

Definition outr : Counter.t := [ ("Undetermined", 0%Z); ("S1", 0%Z); ("S2", 0%Z) ].

(** Reads of the four streams: [read1], [index1], [read2], [index2]. *)
Definition payload1 : read := mkRead "read1" "ACGTAC" (Some "IIIIII").
Definition payload2 : read := mkRead "read1" "TTGGCC" (Some "JJJJJJ").
Definition index2_read : read := mkRead "read1" "AAAAAA" (Some "FFFFFF").
Definition index1_read (bases : string) : read := mkRead "read1" bases (Some "FFFFFF").

(** A tuple whose compound barcode is ["AAAAAA" ++ bases]. *)
Definition records (bases : string) : read_tuple :=
  Tuple4 payload1 (index1_read bases) payload2 index2_read.

(** Four tuples that take the four branches of the loop body with
    threshold 2: exact for S1, two substitutions away from S1 only, one
    substitution away from both samples, far from both. *)
Definition tuples : list read_tuple :=
  [ records "CCCCCC"; records "GGCCCC"; records "CCCCCT"; records "GGGGGG" ].

(** The state after the main loop on [tuples]. *)
Definition finish : state :=
  match for_loop Levenshtein.distance (inputargs 2) start tuples with
  | Ok st => st
  | _ => start
  end.

(** The state after one iteration from [start] on that tuple, with
    threshold [t]. *)
Definition after (t : Z) (bases : string) : state :=
  match loop_body Levenshtein.distance (inputargs t) start (records bases) with
  | Ok st => st
  | _ => start
  end.

End Dual.

(** A small run in single-index mode: one sample with first index 1 and
    second index 1, and one read whose bases 6 to 11 and whose index read
    spell that sample's compound index. *)
Module Single.

Definition files : FS.t :=
  [ ("R1.fq", Dual.one_read_fastq "read1 1:N:0" "NNNNNNATCACGTTTT" "IIIIIIIIIIIIIIII");
    ("R2.fq", Dual.one_read_fastq "read1 2:N:0" "GGGGGG" "IIIIII");
    ("I1.fq", Dual.one_read_fastq "read1 1:N:0" "CGTGAT" "IIIIII");
    ("samples.csv", "S1,1,1" ++ NL) ].

Definition inputargs : args :=
  mkArgs "R1.fq" "R2.fq" "I1.fq" None (Some "samples.csv") 2 false "fq".

Definition record1 : read := mkRead "read1" "NNNNNNATCACGTTTT" (Some "IIIIIIIIIIIIIIII").
Definition record2 : read := mkRead "read1" "CGTGAT" (Some "IIIIII").
Definition record3 : read := mkRead "read1" "GGGGGG" (Some "IIIIII").

End Single.

(** A dual-index run whose second index file fails the sanity check: the
    quality line of its only record is shorter than the sequence line. *)
Module UncheckedIndex.

Definition files : FS.t :=
  [ ("R1.fq", Dual.one_read_fastq "read1 1:N:0" "ACGTAC" "IIIIII");
    ("R2.fq", Dual.one_read_fastq "read1 2:N:0" "TTGGCC" "JJJJJJ");
    ("I1.fq", Dual.one_read_fastq "read1 1:N:0" "CCCCCC" "FFFFFF");
    ("I2.fq", Dual.one_read_fastq "read1 2:N:0" "AAAAAA" "FFF");
    ("samples.csv", Dual.samples_csv) ].

End UncheckedIndex.

(* ------------------------------------------------------------------ *)
(** ** After the main loop, and the vocabulary of further statements   *)
(* ------------------------------------------------------------------ *)

(** [open(x)] for reading, on a value of [XXdict1]; [os.stat(path)]. *)
Definition open_read (files : FS.t) (x : pyval) : result string :=
  match x with
  | Str path =>
      if PyDict.contains files path then Ok path
      else Raise (FileNotFoundError path)
  | FileObj _ => Raise TypeError
  end.

Definition stat (files : FS.t) (path : string) : result unit :=
  if PyDict.contains files path then Ok tt else Raise (FileNotFoundError path).

(** [for x in XXdict1.values(): open(x).close; sort_permissions(open(x).name)].
    Permissions are not part of the file system here, so what is left of
    the body is that the file is opened twice and looked at once. *)
Fixpoint reopen_outputs (files : FS.t) (values : list pyval) : result unit :=
  match values with
  | [] => Ok tt
  | x :: rest =>
      _ <- open_read files x ;;
      path <- open_read files x ;;
      _ <- stat files path ;;
      reopen_outputs files rest
  end.

(** Lines 728 to 737: the files are closed and their permissions set. *)
Definition close_files (st : state) : result unit :=
  XXd <- lookup_name "XXdict1" (XXdict1 (names st)) ;;
  _ <- reopen_outputs (fs st) (PyDict.values XXd) ;;
  out1 <- lookup_name "failed1" (failed1 (names st)) ;;
  out2 <- lookup_name "failed2" (failed2 (names st)) ;;
  _ <- stat (fs st) out1 ;;
  stat (fs st) out2.

(** [old in s], for a non-empty [old]. *)
Fixpoint occurs (old s : string) : bool :=
  String.prefix old s ||
  match s with
  | EmptyString => false
  | String _ s' => occurs old s'
  end.

(** Every character of [s] passes [p]. *)
Fixpoint all_chars (p : ascii -> bool) (s : string) : bool :=
  match s with
  | EmptyString => true
  | String c s' => p c && all_chars p s'
  end.

(** [s] holds no line terminator; no space. *)
Definition one_line (s : string) : bool :=
  all_chars (fun c => negb (Ascii.eqb c LF) && negb (Ascii.eqb c CR)) s.

Definition no_space (s : string) : bool :=
  all_chars (fun c => negb (Ascii.eqb c " ")) s.

(** A read that the four-line text represents without loss: a one-word
    identifier, bases on one line that do not begin like a header or a
    separator, and one quality character per base. *)
Definition fastq_record (r : read) : bool :=
  one_line (name r) && no_space (name r) &&
  one_line (seq r) && negb (first_char_in "@+>" (seq r)) &&
  match qual r with
  | Some q => one_line q && Nat.eqb (String.length q) (String.length (seq r))
  | None => false
  end.

(** The text of a read, and of a file of reads. *)
Definition read_text (r : read) : string :=
  match qual r with
  | Some q => fastq_text (name r) (seq r) q
  | None => EmptyString
  end.

Fixpoint fastq_file (reads : list read) : string :=
  match reads with
  | [] => EmptyString
  | r :: rest => read_text r ++ fastq_file rest
  end.

(** No U in [x], in either case. *)
Definition no_uracil (x : string) : bool :=
  all_chars (fun c => negb (Ascii.eqb c "U") && negb (Ascii.eqb c "u")) x.

(** [min(len(fq1), len(fq2), ...)]: the number of tuples [zip] yields. *)
Definition shortest3 (fq1 fq2 fq3 : list read) : nat :=
  Nat.min (List.length fq1) (Nat.min (List.length fq2) (List.length fq3)).

Definition shortest4 (fq1 fq2 fq3 fq4 : list read) : nat :=
  Nat.min (List.length fq1) (shortest3 fq2 fq3 fq4).

(** A row of the sample table that [read_index_single_file] takes in: not
    the empty line, at least three fields, and the second and third are
    keys of [X1dict] and [X2dict]. *)
Definition known_row (line : string) : bool :=
  negb (String.eqb line NL) &&
  match split "," (strip_newlines line) with
  | _ :: id1 :: id2 :: _ => PyDict.contains X1dict id1 && PyDict.contains X2dict id2
  | _ => false
  end.

(** The state a step ends in, or [st] when it raises; the table of a
    state, empty while [XXdict1] is unbound. *)
Definition state_or (st : state) (r : result state) : state :=
  match r with
  | Ok st' => st'
  | _ => st
  end.

Definition table_of (st : state) : PyDict.t pyval :=
  match XXdict1 (names st) with
  | Some d => d
  | None => PyDict.empty
  end.

(** The dual-index example run with [--outputall]: the table then also
    holds every index combination that no sample uses. *)
Module DualAll.

Definition inputargs : args :=
  mkArgs "R1.fq" "R2.fq" "I1.fq" (Some "I2.fq") (Some "samples.csv") 2 true "fq".

Definition start : state :=
  state_or (initial_state Dual.files) (build_tables inputargs Dual.files).

Definition XXd : PyDict.t pyval := table_of start.

(** A tuple whose compound barcode is the combination of first index 1 and
    second index 1. *)
Definition records : read_tuple :=
  Tuple4 Dual.payload1 (mkRead "read1" "CGTGAT" (Some "FFFFFF"))
         Dual.payload2 (mkRead "read1" "ATCACG" (Some "FFFFFF")).

End DualAll.

(** The dual-index example run with [--extension txt]. *)
Module DualTxt.

Definition inputargs : args :=
  mkArgs "R1.fq" "R2.fq" "I1.fq" (Some "I2.fq") (Some "samples.csv") 2 false "txt".

Definition start : state :=
  state_or (initial_state Dual.files) (build_tables inputargs Dual.files).

Definition XXd : PyDict.t pyval :=
  [ ("AAAAAACCCCCC", Str "S1_R1.txt"); ("AAAAAACCCCCG", Str "S2_R1.txt") ].

End DualTxt.

(** No sample file of the table bears the name under which the reads that
    no sample takes are counted. *)
Definition sample_files_named (st : state) : Prop :=
  forall XXd p,
    XXdict1 (names st) = Some XXd ->
    In (Str p) (PyDict.values XXd) -> p <> "Undetermined".

(** The number of tuples in [zipfqs]. *)
Definition tuples_read (inputargs : args) (fq1 fq2 fq3 fq4 : list read) : nat :=
  if truthy (index2 inputargs) then shortest4 fq1 fq2 fq3 fq4
  else shortest3 fq1 fq2 fq3.

(** [open(x)] finds a file. *)
Definition readable (files : FS.t) (x : pyval) : bool :=
  match x with
  | Str path => PyDict.contains files path
  | FileObj _ => false
  end.

(** The exception of [open(x)] when it finds none. *)
Definition open_error (x : pyval) : exn :=
  match x with
  | Str path => FileNotFoundError path
  | FileObj _ => TypeError
  end.

(** The dual-index example run from the command line to the end of the
    main loop. *)
Module DualRun.

Definition finish : state :=
  state_or (initial_state Dual.files)
    (demultiplex Levenshtein.distance (Dual.inputargs 2) Dual.files).

End DualRun.

(* ------------------------------------------------------------------ *)
(** ** Facts about the run-time model                                  *)
(* ------------------------------------------------------------------ *)

Section DictFacts.

Context {V : Type}.
Implicit Types (d : PyDict.t V) (k : string) (v : V).

Lemma get_set_same d k v : PyDict.get (PyDict.set d k v) k = Some v.
Proof.
  induction d as [|[k' v'] d IH]; simpl.
  - now rewrite String.eqb_refl.
  - destruct (String.eqb k' k) eqn:E; simpl; rewrite E; auto.
Qed.

Lemma get_set_other d k k' v :
  k <> k' -> PyDict.get (PyDict.set d k v) k' = PyDict.get d k'.
Proof.
  intros Hne. induction d as [|[k0 v0] d IH]; simpl.
  - destruct (String.eqb k k') eqn:E; auto.
    apply String.eqb_eq in E. contradiction.
  - destruct (String.eqb k0 k) eqn:E; simpl.
    + apply String.eqb_eq in E. subst k0.
      destruct (String.eqb k k') eqn:E'; auto.
      apply String.eqb_eq in E'. contradiction.
    + now rewrite IH.
Qed.

Lemma get_some_in_keys d k v : PyDict.get d k = Some v -> In k (PyDict.keys d).
Proof.
  induction d as [|[k' v'] d IH]; simpl; [discriminate|].
  destruct (String.eqb k' k) eqn:E.
  - apply String.eqb_eq in E. auto.
  - auto.
Qed.

Lemma in_keys_get d k : In k (PyDict.keys d) -> exists v, PyDict.get d k = Some v.
Proof.
  induction d as [|[k' v'] d IH]; simpl; [tauto|].
  intros [->|Hin].
  - rewrite String.eqb_refl. eauto.
  - destruct (String.eqb k' k); eauto.
Qed.



Lemma in_keys_set d k v k' :
  In k' (PyDict.keys (PyDict.set d k v)) <-> k' = k \/ In k' (PyDict.keys d).
Proof.
  induction d as [|[k0 v0] d IH]; simpl.
  - intuition congruence.
  - destruct (String.eqb k0 k) eqn:E; simpl.
    + apply String.eqb_eq in E. subst. intuition congruence.
    + rewrite IH. intuition congruence.
Qed.


Lemma in_values_set d k v v' :
  In v' (PyDict.values (PyDict.set d k v)) -> v' = v \/ In v' (PyDict.values d).
Proof.
  induction d as [|[k0 v0] d IH]; simpl.
  - intuition congruence.
  - destruct (String.eqb k0 k); simpl; intuition congruence.
Qed.

Lemma get_in_values d k v : PyDict.get d k = Some v -> In v (PyDict.values d).
Proof.
  induction d as [|[k' v'] d IH]; simpl; [discriminate|].
  destruct (String.eqb k' k); [intros [= ->]|]; auto.
Qed.

End DictFacts.

Section CounterFacts.

Lemma total_set (c : Counter.t) k n :
  Counter.total (PyDict.set c k n) = (Counter.total c - Counter.count c k + n)%Z.
Proof.
  unfold Counter.total, Counter.count.
  induction c as [|[k' n'] c IH]; simpl.
  - lia.
  - destruct (String.eqb k' k) eqn:E; simpl.
    + lia.
    + fold (PyDict.values (PyDict.set c k n)). rewrite IH.
      fold (PyDict.values c). lia.
Qed.

(** [c[k] += 1] adds one to the sum of the counts. *)
Lemma total_incr (c : Counter.t) k :
  Counter.total (Counter.incr c k) = (Counter.total c + 1)%Z.
Proof. unfold Counter.incr. rewrite total_set. lia. Qed.

Lemma total_all_zero (c : Counter.t) :
  (forall n, In n (PyDict.values c) -> n = 0%Z) -> Counter.total c = 0%Z.
Proof.
  unfold Counter.total. induction (PyDict.values c) as [|n l IH]; simpl; intros H.
  - reflexivity.
  - rewrite (H n) by auto. rewrite IH; auto.
Qed.

End CounterFacts.

Section FilterFacts.

Context {A : Type} (f : A -> bool).




End FilterFacts.

Section LevenshteinFacts.

Import Levenshtein.














End LevenshteinFacts.

(* ------------------------------------------------------------------ *)
(** ** Facts about the script                                          *)
(* ------------------------------------------------------------------ *)

Section FileLines.

Lemma iter_lines_nonempty text :
  forall line after_cr l,
    In l (iter_lines text line after_cr) -> l <> EmptyString.
Proof.
  induction text as [|c rest IH]; intros line after_cr l; simpl.
  - destruct line; simpl; [tauto|]. intros [<-|[]]. discriminate.
  - destruct (Ascii.eqb c LF).
    + destruct after_cr; [apply IH|].
      intros [<-|Hin]; [destruct line; discriminate|]. eapply IH; eauto.
    + destruct (Ascii.eqb c CR).
      * intros [<-|Hin]; [destruct line; discriminate|]. eapply IH; eauto.
      * apply IH.
Qed.

(** A file never yields an empty line. *)
Lemma file_lines_nonempty text l : In l (file_lines text) -> l <> EmptyString.
Proof. apply iter_lines_nonempty. Qed.

End FileLines.

Section LoopFacts.

Variable lev_distance : string -> string -> nat.
Variable inputargs : args.

(** The loop body once the records are formatted and [XXdict1] read, on a
    barcode that is no key of the table. *)
Lemma loop_body_no_exact_key st r1 r2 r3 r4 q1 q3 XXd :
  truthy (index2 inputargs) = true ->
  XXdict1 (names st) = Some XXd ->
  qual r1 = Some q1 -> qual r3 = Some q3 ->
  PyDict.get XXd (seq r4 ++ seq r2) = None ->
  loop_body lev_distance inputargs st (Tuple4 r1 r2 r3 r4) =
  let matches := fuzzy_matches lev_distance inputargs XXd (seq r4 ++ seq r2) in
  let rec1 := fastq_text (name r1) (seq r1) q1 in
  let rec2 := fastq_text (name r1) (seq r3) q3 in
  if Nat.eqb (List.length matches) 1 then
    matches_0 <- list_item matches 0 ;;
    v <- PyDict.item XXd matches_0 ;;
    path_1 <- open_append v ;;
    outr <- lookup_name "outputreads" (outputreads st) ;;
    Ok (mkState (names st) (Some (Counter.incr outr path_1))
          (FS.write
             (FS.write (FS.open_a (FS.open_a (fs st) path_1) (R2_path path_1))
                path_1 rec1)
             (R2_path path_1) rec2)
          (count st + 1) (dmpd_count st + 1) (fuzzy_count st + 1)
          (clash_count st) (fuzzies st ++ [name r1]))
  else
    out1 <- lookup_name "failed1" (failed1 (names st)) ;;
    out2 <- lookup_name "failed2" (failed2 (names st)) ;;
    outr <- lookup_name "outputreads" (outputreads st) ;;
    Ok (mkState (names st) (Some (Counter.incr outr "Undetermined"))
          (FS.write (FS.write (fs st) out1 rec1) out2 rec2)
          (count st + 1) (dmpd_count st) (fuzzy_count st)
          (if Nat.ltb 1 (List.length matches)
           then clash_count st + 1 else clash_count st)%Z
          (fuzzies st)).
Proof.
  intros Hdual Htab Hq1 Hq3 Hget.
  unfold loop_body, unpack, format_records.
  rewrite Hdual, Hq1, Hq3, Htab. cbn [bind not_none lookup_name].
  unfold PyDict.contains. rewrite Hget. cbn zeta.
  reflexivity.
Qed.

(** The loop body on a barcode that is a key of the table. *)
Lemma loop_body_exact_key st r1 r2 r3 r4 q1 q3 XXd outr path :
  truthy (index2 inputargs) = true ->
  XXdict1 (names st) = Some XXd ->
  outputreads st = Some outr ->
  qual r1 = Some q1 -> qual r3 = Some q3 ->
  PyDict.get XXd (seq r4 ++ seq r2) = Some (Str path) ->
  loop_body lev_distance inputargs st (Tuple4 r1 r2 r3 r4) =
  Ok (mkState (names st) (Some (Counter.incr outr path))
        (FS.write
           (FS.open_a
              (FS.write (FS.open_a (fs st) path) path
                 (fastq_text (name r1) (seq r1) q1))
              (R2_path path))
           (R2_path path) (fastq_text (name r1) (seq r3) q3))
        (count st + 1) (dmpd_count st + 1) (fuzzy_count st) (clash_count st)
        (fuzzies st)).
Proof.
  intros Hdual Htab Hout Hq1 Hq3 Hget.
  unfold loop_body, unpack, format_records.
  rewrite Hdual, Hq1, Hq3, Htab, Hout. cbn [bind not_none lookup_name].
  unfold PyDict.contains, PyDict.item. rewrite Hget.
  reflexivity.
Qed.

(** Three reads never complete an iteration: [new_record1] is bound in the
    four-read block only, and every branch writes it. *)
Lemma loop_body_three_reads st r1 r2 r3 st' :
  loop_body lev_distance inputargs st (Tuple3 r1 r2 r3) <> Ok st'.
Proof.
  unfold loop_body, unpack, format_records.
  destruct (truthy (index2 inputargs)); [discriminate|].
  cbn [bind].
  destruct (qual r3); [|discriminate]. cbn [bind not_none].
  destruct (qual r1); [|discriminate]. cbn [bind not_none].
  destruct (qual r2); [|discriminate]. cbn [bind not_none].
  destruct (XXdict1 (names st)) as [XXd|]; [|discriminate].
  cbn [bind lookup_name].
  destruct (PyDict.contains XXd _).
  - destruct (PyDict.item XXd _) as [v| |]; try discriminate. cbn [bind].
    destruct (open_append v); discriminate.
  - destruct (Nat.eqb _ 1).
    + destruct (list_item _ 0) as [m| |]; try discriminate. cbn [bind].
      destruct (PyDict.item XXd m) as [v| |]; try discriminate. cbn [bind].
      destruct (open_append v); discriminate.
    + destruct (failed1 (names st)); discriminate.
Qed.

(** Every completed iteration is one of the three branches on four
    reads. *)
Lemma loop_body_inv st records st' :
  loop_body lev_distance inputargs st records = Ok st' ->
  exists r1 r2 r3 r4 q1 q3 XXd outr,
    records = Tuple4 r1 r2 r3 r4 /\
    truthy (index2 inputargs) = true /\
    qual r1 = Some q1 /\ qual r3 = Some q3 /\
    XXdict1 (names st) = Some XXd /\
    outputreads st = Some outr /\
    let seqX := seq r4 ++ seq r2 in
    let matches := fuzzy_matches lev_distance inputargs XXd seqX in
    let rec1 := fastq_text (name r1) (seq r1) q1 in
    let rec2 := fastq_text (name r1) (seq r3) q3 in
    (exists path,
        PyDict.get XXd seqX = Some (Str path) /\
        st' = mkState (names st) (Some (Counter.incr outr path))
                (FS.write
                   (FS.open_a (FS.write (FS.open_a (fs st) path) path rec1)
                      (R2_path path))
                   (R2_path path) rec2)
                (count st + 1) (dmpd_count st + 1) (fuzzy_count st)
                (clash_count st) (fuzzies st))
    \/
    (exists ndx path,
        PyDict.get XXd seqX = None /\ matches = [ndx] /\
        PyDict.get XXd ndx = Some (Str path) /\
        st' = mkState (names st) (Some (Counter.incr outr path))
                (FS.write
                   (FS.write
                      (FS.open_a (FS.open_a (fs st) path) (R2_path path))
                      path rec1)
                   (R2_path path) rec2)
                (count st + 1) (dmpd_count st + 1) (fuzzy_count st + 1)
                (clash_count st) (fuzzies st ++ [name r1]))
    \/
    (exists out1 out2,
        PyDict.get XXd seqX = None /\ List.length matches <> 1 /\
        failed1 (names st) = Some out1 /\ failed2 (names st) = Some out2 /\
        st' = mkState (names st) (Some (Counter.incr outr "Undetermined"))
                (FS.write (FS.write (fs st) out1 rec1) out2 rec2)
                (count st + 1) (dmpd_count st) (fuzzy_count st)
                (if Nat.ltb 1 (List.length matches)
                 then clash_count st + 1 else clash_count st)%Z
                (fuzzies st)).
Proof.
  intros Hrun. destruct records as [r1 r2 r3|r1 r2 r3 r4].
  { exfalso. eapply loop_body_three_reads; eauto. }
  exists r1, r2, r3, r4.
  assert (Hdual : truthy (index2 inputargs) = true).
  { unfold loop_body, unpack in Hrun.
    destruct (truthy (index2 inputargs)); [reflexivity|discriminate]. }
  destruct (qual r1) as [q1|] eqn:Hq1.
  2:{ unfold loop_body, unpack, format_records in Hrun.
      rewrite Hdual, Hq1 in Hrun. discriminate. }
  destruct (qual r3) as [q3|] eqn:Hq3.
  2:{ unfold loop_body, unpack, format_records in Hrun.
      rewrite Hdual, Hq1, Hq3 in Hrun. discriminate. }
  destruct (XXdict1 (names st)) as [XXd|] eqn:Htab.
  2:{ unfold loop_body, unpack, format_records in Hrun.
      rewrite Hdual, Hq1, Hq3, Htab in Hrun. discriminate. }
  exists q1, q3, XXd.
  destruct (PyDict.get XXd (seq r4 ++ seq r2)) as [v|] eqn:Hget.
  - (* exact *)
    unfold loop_body, unpack, format_records in Hrun.
    rewrite Hdual, Hq1, Hq3, Htab in Hrun. cbn [bind not_none lookup_name] in Hrun.
    unfold PyDict.contains, PyDict.item in Hrun. rewrite Hget in Hrun.
    cbn [bind] in Hrun.
    destruct v as [path|f]; [|discriminate]. cbn [bind open_append] in Hrun.
    destruct (outputreads st) as [outr|] eqn:Hout; [|discriminate].
    cbn [bind lookup_name] in Hrun. injection Hrun as <-.
    exists outr. repeat (split; [first [reflexivity|assumption]|]).
    left. exists path. split; [assumption|reflexivity].
  - rewrite (loop_body_no_exact_key _ _ _ _ _ q1 q3 XXd) in Hrun by assumption.
    cbn zeta in Hrun.
    destruct (Nat.eqb_spec
                (List.length
                   (fuzzy_matches lev_distance inputargs XXd (seq r4 ++ seq r2))) 1)
      as [Hlen|Hlen].
    + (* fuzzy *)
      destruct (fuzzy_matches lev_distance inputargs XXd (seq r4 ++ seq r2))
        as [|ndx [|? ?]] eqn:Hm; try discriminate.
      cbn [bind list_item nth_error] in Hrun. unfold PyDict.item in Hrun.
      destruct (PyDict.get XXd ndx) as [v|] eqn:Hndx; [|discriminate].
      cbn [bind] in Hrun.
      destruct v as [path|f]; [|discriminate]. cbn [bind open_append] in Hrun.
      destruct (outputreads st) as [outr|] eqn:Hout; [|discriminate].
      cbn [bind lookup_name] in Hrun. injection Hrun as <-.
      exists outr. repeat (split; [first [reflexivity|assumption]|]).
      right. left. exists ndx, path. cbn zeta. rewrite Hm. repeat split; assumption.
    + (* undetermined *)
      destruct (failed1 (names st)) as [out1|] eqn:Hf1; [|discriminate].
      destruct (failed2 (names st)) as [out2|] eqn:Hf2; [|discriminate].
      destruct (outputreads st) as [outr|] eqn:Hout; [|discriminate].
      cbn [bind lookup_name] in Hrun. injection Hrun as <-.
      exists outr. repeat (split; [first [reflexivity|assumption]|]).
      right. right. exists out1, out2. repeat split; assumption.
Qed.

End LoopFacts.

Section StartUp.

Lemma check_inputs_ok files fl :
  check_inputs files fl = Ok tt <->
  forall f, In f fl -> fastq_check files f = Ok true.
Proof.
  induction fl as [|f rest IH]; simpl.
  - split; [intros _ ? []|reflexivity].
  - destruct (fastq_check files f) as [[|]| |] eqn:E; cbn [bind Bool.eqb].
    + rewrite IH. split.
      * intros H g [<-|Hg]; auto.
      * intros H g Hg. apply H. now right.
    + split; [discriminate|]. intros H. specialize (H f (or_introl eq_refl)).
      congruence.
    + split; [discriminate|]. intros H. specialize (H f (or_introl eq_refl)).
      congruence.
    + split; [discriminate|]. intros H. specialize (H f (or_introl eq_refl)).
      congruence.
Qed.

(** The script gets past its start-up checks exactly when a sample table
    or [--outputall] is given and the two payload files and the first
    index file pass [fastq_check].  The second index file plays no part. *)
Lemma startup_checks_ok inputargs files :
  startup_checks inputargs files = Ok tt <->
  (outputall inputargs = true \/ truthy (indexlist inputargs) = true) /\
  fastq_check files (read1 inputargs) = Ok true /\
  fastq_check files (read2 inputargs) = Ok true /\
  fastq_check files (index1 inputargs) = Ok true.
Proof.
  unfold startup_checks.
  destruct (outputall inputargs), (truthy (indexlist inputargs));
    cbn [Bool.eqb andb negb]; rewrite ?check_inputs_ok; simpl.
  1-3: split;
    [intros H; split; [auto|]; repeat split; apply H; auto
    |intros (_ & H1 & H2 & H3) f [<-|[<-|[<-|[]]]]; assumption].
  split; [discriminate|]. intros [[H|H] _]; discriminate.
Qed.

(** Without a sample table and without [--outputall] the script exits at
    once. *)
Lemma startup_exits_without_table inputargs files :
  outputall inputargs = false ->
  truthy (indexlist inputargs) = false ->
  startup_checks inputargs files = SysExit.
Proof. unfold startup_checks. intros -> ->. reflexivity. Qed.

(** A payload file or the first index file that fails the check stops the
    script before the tables are built: it exits, or an earlier file had
    already raised. *)
Lemma startup_stops_on_failed_check inputargs files f :
  In f [read1 inputargs; read2 inputargs; index1 inputargs] ->
  fastq_check files f = Ok false ->
  startup_checks inputargs files = SysExit \/
  exists e, startup_checks inputargs files = Raise e.
Proof.
  intros Hin Hfail.
  destruct (startup_checks inputargs files) as [[]|e|] eqn:E; eauto.
  apply startup_checks_ok in E as (_ & H1 & H2 & H3).
  destruct Hin as [<-|[<-|[<-|[]]]]; congruence.
Qed.

End StartUp.

Section DualIndexTable.

Lemma dual_rows_keys suffix lines :
  forall X O U X' O' U',
    dual_rows suffix lines X O U = Ok (X', O', U') ->
    forall key,
      In key (PyDict.keys X') <->
      In key (PyDict.keys X) \/
      exists line, In line (rows_read lines) /\ row_has_key line key.
Proof.
  induction lines as [|line rest IH]; intros X O U X' O' U' Hrun key;
    simpl in Hrun.
  - injection Hrun as <- <- <-. simpl. firstorder.
  - simpl. destruct (String.eqb line NL).
    + injection Hrun as <- <- <-. simpl. firstorder.
    + destruct (map strip (split "," line))
        as [|sample [|id1 [|id2 more]]] eqn:Hel;
        try discriminate.
      cbn [bind list_item nth_error] in Hrun.
      rewrite (IH _ _ _ _ _ _ Hrun key), in_keys_set. split.
      * intros [[->|Hin]|(l & Hl & Hk)].
        -- right. exists line. split; [now left|].
           exists sample, id1, id2, more. auto.
        -- now left.
        -- right. exists l. split; [now right|assumption].
      * intros [Hin|(l & [<-|Hl] & Hk)].
        -- left. now right.
        -- destruct Hk as (s' & i1 & i2 & m' & Hel' & ->).
           rewrite Hel in Hel'. injection Hel' as _ <- <- _.
           left. now left.
        -- right. exists l. auto.
Qed.

Lemma dual_rows_values suffix lines :
  forall X O U X' O' U',
    dual_rows suffix lines X O U = Ok (X', O', U') ->
    (forall v, In v (PyDict.values X) -> exists path, v = Str path) ->
    forall v, In v (PyDict.values X') -> exists path, v = Str path.
Proof.
  induction lines as [|line rest IH]; intros X O U X' O' U' Hrun HX;
    simpl in Hrun.
  - now injection Hrun as <- <- <-.
  - destruct (String.eqb line NL).
    + now injection Hrun as <- <- <-.
    + destruct (map strip (split "," line))
        as [|sample [|id1 [|id2 more]]] eqn:Hel;
        try discriminate.
      cbn [bind list_item nth_error] in Hrun.
      apply (IH _ _ _ _ _ _ Hrun).
      intros v Hv. apply in_values_set in Hv as [->|Hv]; eauto.
Qed.


(** What [read_index_dual_file] returns, in terms of its loop. *)
Lemma read_index_dual_file_inv inputargs files XXd outr used out1 out2 files' :
  read_index_dual_file inputargs files = Ok (XXd, outr, used, out1, out2, files') ->
  exists path lines,
    indexlist inputargs = Some path /\
    FS.read_lines files' path = Ok lines /\
    out1 = "Undetermined_R1" ++ "." ++ extension inputargs /\
    out2 = "Undetermined_R2" ++ "." ++ extension inputargs /\
    dual_rows ("." ++ extension inputargs) lines PyDict.empty
      (PyDict.set PyDict.empty "Undetermined" 0%Z) PyDict.empty =
    Ok (XXd, outr, used).
Proof.
  unfold read_index_dual_file. intros Hrun.
  destruct (indexlist inputargs) as [path|]; [|discriminate].
  cbn [bind not_none] in Hrun.
  destruct (FS.read_lines _ path) as [lines| |] eqn:Hlines; try discriminate.
  cbn [bind] in Hrun.
  destruct (dual_rows _ lines _ _ _) as [[[X O] U]| |] eqn:Hrows;
    try discriminate.
  cbn [bind] in Hrun. injection Hrun as <- <- <- <- <- <-.
  exists path, lines. auto.
Qed.

End DualIndexTable.

Section SingleIndexMode.

(** While [XXdict1] is unbound the [--outputall] loop cannot bind it: the
    first combination that is not in use stops the script. *)
Lemma outputall_rows_keeps_XXdict1_unbound suffix combs :
  forall st st',
    XXdict1 (names st) = None ->
    outputall_rows suffix combs st = Ok st' ->
    XXdict1 (names st') = None.
Proof.
  induction combs as [|x rest IH]; intros st st' Hnone Hrun; simpl in Hrun.
  - now inversion Hrun; subst.
  - destruct (list_item (split "-" x) 0); try discriminate.
    cbn [bind] in Hrun.
    destruct (PyDict.item X1dict a); try discriminate. cbn [bind] in Hrun.
    destruct (list_item (split "-" x) 1); try discriminate.
    cbn [bind] in Hrun.
    destruct (PyDict.item X2dict a1); try discriminate. cbn [bind] in Hrun.
    destruct (lookup_name "usedindexes" (usedindexes (names st)));
      try discriminate. cbn [bind] in Hrun.
    destruct (negb _).
    + rewrite Hnone in Hrun. discriminate.
    + eauto.
Qed.

(** Without a second index file no path through the table-building code
    binds [XXdict1]. *)
Lemma single_index_leaves_XXdict1_unbound inputargs files st :
  truthy (index2 inputargs) = false ->
  build_tables inputargs files = Ok st ->
  XXdict1 (names st) = None.
Proof.
  intros Hsingle Hbuild. unfold build_tables in Hbuild. rewrite Hsingle in Hbuild.
  destruct (truthy (indexlist inputargs)).
  - destruct (read_index_single_file inputargs files)
      as [[[[[XXd outr] used] fl] files']| |]; try discriminate.
    cbn [bind] in Hbuild.
    destruct (Bool.eqb (outputall inputargs) true).
    + eapply outputall_rows_keeps_XXdict1_unbound; [|exact Hbuild]. reflexivity.
    + now inversion Hbuild; subst.
  - cbn [bind] in Hbuild.
    destruct (Bool.eqb (outputall inputargs) true).
    + eapply outputall_rows_keeps_XXdict1_unbound; [|exact Hbuild]. reflexivity.
    + now inversion Hbuild; subst.
Qed.

End SingleIndexMode.

Section Conservation.

Variable lev_distance : string -> string -> nat.
Variable inputargs : args.

(** A completed iteration counts the read once in [count] and once in
    [outputreads], under a single key. *)
Lemma loop_body_counts st records st' :
  loop_body lev_distance inputargs st records = Ok st' ->
  exists c k,
    outputreads st = Some c /\
    outputreads st' = Some (Counter.incr c k) /\
    count st' = (count st + 1)%Z.
Proof.
  intros Hrun.
  apply loop_body_inv in Hrun
    as (r1 & r2 & r3 & r4 & q1 & q3 & XXd & outr & _ & _ & _ & _ & _ & Hout
        & Hcases).
  cbn zeta in Hcases. exists outr.
  destruct Hcases
    as [(dest & _ & ->)|[(ndx & dest & _ & _ & _ & ->)|(o1 & o2 & _ & _ & _ & _ & ->)]];
    eexists; simpl; eauto.
Qed.

Lemma for_loop_counts zipfqs :
  forall st st' c,
    outputreads st = Some c ->
    for_loop lev_distance inputargs st zipfqs = Ok st' ->
    exists c',
      outputreads st' = Some c' /\
      Counter.total c' = (Counter.total c + Z.of_nat (List.length zipfqs))%Z /\
      count st' = (count st + Z.of_nat (List.length zipfqs))%Z.
Proof.
  induction zipfqs as [|records rest IH]; intros st st' c Hc Hrun;
    simpl in Hrun.
  - injection Hrun as <-. exists c. simpl. repeat split; auto; lia.
  - destruct (loop_body lev_distance inputargs st records) as [st1| |] eqn:Hbody;
      try discriminate.
    cbn [bind] in Hrun.
    apply loop_body_counts in Hbody as (c0 & k & Hc0 & Hc1 & Hcount).
    rewrite Hc in Hc0. injection Hc0 as <-.
    destruct (IH _ _ _ Hc1 Hrun) as (c' & Hc' & Htotal & Hcount').
    exists c'. rewrite total_incr in Htotal.
    cbn [List.length]. repeat split; auto; lia.
Qed.

End Conservation.

Section TablesStartAtZero.

Lemma all_zero_set (c : Counter.t) k : all_zero c -> all_zero (PyDict.set c k 0%Z).
Proof.
  intros Hc n Hn. apply in_values_set in Hn as [->|Hn]; auto.
Qed.

Lemma dual_rows_zero suffix lines :
  forall X O U X' O' U',
    dual_rows suffix lines X O U = Ok (X', O', U') ->
    all_zero O -> all_zero O'.
Proof.
  induction lines as [|line rest IH]; intros X O U X' O' U' Hrun HO;
    simpl in Hrun.
  - now injection Hrun as <- <- <-.
  - destruct (String.eqb line NL).
    + now injection Hrun as <- <- <-.
    + destruct (map strip (split "," line))
        as [|sample [|id1 [|id2 more]]] eqn:Hel;
        try discriminate.
      cbn [bind list_item nth_error] in Hrun.
      apply (IH _ _ _ _ _ _ Hrun). now apply all_zero_set.
Qed.

Lemma single_rows_zero suffix indexes :
  forall files X O U X' O' U' files',
    single_rows suffix indexes files X O U = Ok (X', O', U', files') ->
    all_zero O -> all_zero O'.
Proof.
  induction indexes as [|x rest IH]; intros files X O U X' O' U' files' Hrun HO;
    simpl in Hrun.
  - now injection Hrun as <- <- <- <-.
  - destruct (String.eqb x NL).
    + now injection Hrun as <- <- <- <-.
    + destruct (split "," (strip_newlines x)) as [|sample [|e1 more]];
        unfold list_item in Hrun; cbn [bind nth_error] in Hrun;
        try discriminate.
      destruct (PyDict.item X1dict e1); cbn [bind] in Hrun; try discriminate.
      destruct more as [|e2 more]; cbn [bind nth_error] in Hrun;
        try discriminate.
      destruct (PyDict.item X2dict e2); cbn [bind] in Hrun; try discriminate.
      apply (IH _ _ _ _ _ _ _ _ Hrun). now apply all_zero_set.
Qed.

Lemma outputall_rows_zero suffix combs :
  forall st st' c,
    outputall_rows suffix combs st = Ok st' ->
    outputreads st = Some c -> all_zero c -> count st = 0%Z ->
    exists c', outputreads st' = Some c' /\ all_zero c' /\ count st' = 0%Z.
Proof.
  induction combs as [|x rest IH]; intros st st' c Hrun Hc Hzero Hcount;
    simpl in Hrun.
  - injection Hrun as <-. eauto.
  - destruct (list_item (split "-" x) 0); try discriminate.
    cbn [bind] in Hrun.
    destruct (PyDict.item X1dict a); try discriminate. cbn [bind] in Hrun.
    destruct (list_item (split "-" x) 1); try discriminate.
    cbn [bind] in Hrun.
    destruct (PyDict.item X2dict a1); try discriminate. cbn [bind] in Hrun.
    destruct (lookup_name "usedindexes" (usedindexes (names st)));
      try discriminate. cbn [bind] in Hrun.
    destruct (negb _).
    + destruct (lookup_name "XXdict1" (XXdict1 (names st)));
        try discriminate. cbn [bind] in Hrun.
      rewrite Hc in Hrun. cbn [bind lookup_name] in Hrun.
      eapply IH; [exact Hrun|reflexivity| |exact Hcount].
      now apply all_zero_set.
    + eauto.
Qed.

(** With no sample table nothing binds [usedindexes], and the first index
    combination of the [--outputall] loop stops the script. *)
Lemma outputall_rows_unbound suffix st :
  usedindexes (names st) = None ->
  outputall_rows suffix allXcombs st = Raise (NameError "usedindexes").
Proof.
  intros Hnone.
  assert (E : allXcombs = "1-1" :: tl allXcombs) by reflexivity.
  rewrite E. generalize (tl allXcombs). intros rest.
  cbn. rewrite Hnone. reflexivity.
Qed.

(** Once the start-up checks are passed and the tables built, the main
    loop starts with every count at zero. *)
Lemma build_tables_zero inputargs files st :
  startup_checks inputargs files = Ok tt ->
  build_tables inputargs files = Ok st ->
  exists c, outputreads st = Some c /\ Counter.total c = 0%Z /\ count st = 0%Z.
Proof.
  intros Hstart Hbuild.
  apply startup_checks_ok in Hstart as [Hmode _].
  assert (Hbase : all_zero (PyDict.set PyDict.empty "Undetermined" 0%Z))
    by (apply all_zero_set; intros ? []).
  enough (exists c, outputreads st = Some c /\ all_zero c /\ count st = 0%Z)
    as (c & Hc & Hz & Hcount)
    by (exists c; auto using total_all_zero).
  unfold build_tables in Hbuild.
  destruct (truthy (indexlist inputargs)) eqn:Hlist.
  - assert (Hfirst :
      forall st1,
        (if truthy (index2 inputargs) then
           ' (XXdict1, outputreads, usedindexes, failed1, failed2, files) <-
               read_index_dual_file inputargs files ;;
           Ok (mkState
                 (mkTables (Some XXdict1) None (Some usedindexes) None
                    (Some failed1) (Some failed2)
                    (Some (PyDict.keys outputreads)))
                 (Some outputreads) files 0 0 0 0 [])
         else
           ' (XXdict, outputreads, usedindexes, failed, files) <-
               read_index_single_file inputargs files ;;
           Ok (mkState
                 (mkTables None (Some XXdict) (Some usedindexes) (Some failed)
                    None None None)
                 (Some outputreads) files 0 0 0 0 [])) = Ok st1 ->
        exists c, outputreads st1 = Some c /\ all_zero c /\ count st1 = 0%Z).
    { intros st1 H1. destruct (truthy (index2 inputargs)).
      - unfold read_index_dual_file in H1.
        destruct (indexlist inputargs) as [path|]; [|discriminate].
        cbn [bind not_none] in H1.
        destruct (FS.read_lines _ path) as [lines| |]; try discriminate.
        cbn [bind] in H1.
        destruct (dual_rows _ lines _ _ _) as [[[X O] U]| |] eqn:Hrows;
          try discriminate.
        cbn [bind] in H1. injection H1 as <-.
        exists O. simpl. repeat split; auto.
        eapply dual_rows_zero; eauto.
      - unfold read_index_single_file in H1.
        destruct (indexlist inputargs) as [path|]; [|discriminate].
        cbn [bind not_none] in H1.
        destruct (FS.read_lines _ path) as [lines| |]; try discriminate.
        cbn [bind] in H1.
        destruct (single_rows _ lines _ _ _ _) as [[[[X O] U] F]| |] eqn:Hrows;
          try discriminate.
        cbn [bind] in H1. injection H1 as <-.
        exists O. simpl. repeat split; auto.
        eapply single_rows_zero; eauto. }
    match type of Hbuild with
    | bind ?first _ = _ => destruct first as [st1| |] eqn:H1; try discriminate
    end.
    cbn [bind] in Hbuild.
    destruct (Hfirst st1 eq_refl) as (c1 & Hc1 & Hz1 & Hcount1).
    destruct (Bool.eqb (outputall inputargs) true).
    + eapply outputall_rows_zero; eauto.
    + injection Hbuild as <-. eauto.
  - cbn [bind] in Hbuild.
    destruct Hmode as [Hall|Habs]; [|discriminate].
    rewrite Hall in Hbuild. cbn [Bool.eqb] in Hbuild.
    rewrite outputall_rows_unbound in Hbuild by reflexivity. discriminate.
Qed.

End TablesStartAtZero.

Section TablesAreDictionaries.



End TablesAreDictionaries.

Section Scenarios.

(** One substitution; two keys one substitution away. *)
Example distance_one_substitution :
  Levenshtein.distance "AAAAAACCCCCC" "AAAAAACCCCCT" = 1.
Proof. reflexivity. Qed.

Example distance_insertion_and_deletion :
  Levenshtein.distance "ACGT" "CGTA" = 2 /\
  Levenshtein.lev "ACGT" "CGTA" = 2.
Proof. split; reflexivity. Qed.

(** The second file of a sample is found by textual substitution in the
    name of the first: with the default extension it is the [_R2] file,
    with an extension that does not begin with "f" it is the first file
    again. *)
Example R2_path_default_extension : R2_path "S1_R1.fq" = "S1_R2.fq".
Proof. reflexivity. Qed.

Example R2_path_other_extension : R2_path "S1_R1.txt" = "S1_R1.txt".
Proof. reflexivity. Qed.

Example revcomp_index : revcomp "CGGGGG" = "CCCCCG".
Proof. reflexivity. Qed.

(** Universal newlines, and lines that keep their terminator. *)
Example file_lines_example :
  file_lines ("@r" ++ String CR NL ++ "AC" ++ NL ++ "+") = ["@r" ++ NL; "AC" ++ NL; "+"].
Proof. reflexivity. Qed.

End Scenarios.

(* ------------------------------------------------------------------ *)
(** ** The claims of the specification                                 *)
(* ------------------------------------------------------------------ *)










(** C5 (the code departs from the claim).  In single-index mode the compound
    barcode of a three-read tuple is bases 6 to 11 of the first read followed
    by the whole index read, as the claim says; but the loop then looks the
    barcode up in [XXdict1], which only the dual-index table builder binds,
    so the iteration stops with [NameError] and the read reaches no
    sample's output. *)
Theorem single_index_read_is_never_routed
    (lev_distance : string -> string -> nat) (inputargs : args) (files : FS.t)
    (st : state) (record1 record2 record3 : read) (qual1 qual2 qual3 : string) :
  truthy (index2 inputargs) = false ->
  build_tables inputargs files = Ok st ->
  qual record1 = Some qual1 ->
  qual record2 = Some qual2 ->
  qual record3 = Some qual3 ->
  format_records (Tuple3 record1 record2 record3) =
    Ok (slice 6 12 (seq record1) ++ seq record2, None, None) /\
  loop_body lev_distance inputargs st (Tuple3 record1 record2 record3) =
    Raise (NameError "XXdict1").
Proof.
  intros Hsingle Hbuild Hq1 Hq2 Hq3.
  pose proof (single_index_leaves_XXdict1_unbound _ _ _ Hsingle Hbuild) as Hnone.
  unfold loop_body, unpack, format_records.
  rewrite Hsingle, Hq1, Hq2, Hq3, Hnone. split; reflexivity.
Qed.

(** The sample table names the read's compound index, and still the
    iteration on that read stops. *)
Lemma single_index_read_is_never_routed_witness :
  exists st,
    build_tables Single.inputargs Single.files = Ok st /\
    XXdict (names st) = Some [("ATCACGCGTGAT", FileObj "S1.fq")] /\
    format_records
      (Tuple3 Single.record1 Single.record2 Single.record3) =
      Ok ("ATCACGCGTGAT", None, None) /\
    loop_body Levenshtein.distance Single.inputargs st
      (Tuple3 Single.record1 Single.record2 Single.record3) =
      Raise (NameError "XXdict1").
Proof.
  eexists. split; [vm_compute; reflexivity|]. split; [reflexivity|].
  apply (single_index_read_is_never_routed Levenshtein.distance
           Single.inputargs Single.files _
           Single.record1 Single.record2 Single.record3
           "IIIIIIIIIIIIIIII" "IIIIII" "IIIIII"); reflexivity.
Defined.

(** The whole run on those files: the three inputs pass the sanity check,
    the table is built, the first tuple is read, and the script stops. *)
Lemma single_index_run_stops_with_name_error :
  readfq Single.files "R1.fq" = Ok [Single.record1] /\
  readfq Single.files "I1.fq" = Ok [Single.record2] /\
  readfq Single.files "R2.fq" = Ok [Single.record3] /\
  demultiplex Levenshtein.distance Single.inputargs Single.files =
    Raise (NameError "XXdict1").
Proof. repeat split; vm_compute; reflexivity. Qed.

(** C6.  In dual-index mode the keys of the table are exactly the strings
    [id2 ++ revcomp id1] of the rows of the sample table (the lines before
    its first empty line); the compound barcode of a four-read tuple is the
    sequence of the fourth read followed by the sequence of the second; and
    the loop body takes its exact-match branch on the tuple if and only if
    that barcode is the key of some row. *)
Theorem dual_index_exact_match_iff
    (lev_distance : string -> string -> nat) (inputargs : args)
    (files files' : FS.t) (XXd : PyDict.t pyval) (outr0 : Counter.t)
    (used : PyDict.t string) (out1 out2 : string) :
  truthy (index2 inputargs) = true ->
  read_index_dual_file inputargs files =
    Ok (XXd, outr0, used, out1, out2, files') ->
  exists path lines,
    indexlist inputargs = Some path /\
    FS.read_lines files' path = Ok lines /\
    (forall key,
        In key (PyDict.keys XXd) <->
        exists line id1 id2 sample more,
          In line (rows_read lines) /\
          map strip (split "," line) = sample :: id1 :: id2 :: more /\
          key = id2 ++ revcomp id1) /\
    forall (st : state) (record1 record2 record3 record4 : read)
           (qual1 qual3 : string) (outr : Counter.t),
      XXdict1 (names st) = Some XXd ->
      outputreads st = Some outr ->
      qual record1 = Some qual1 ->
      qual record3 = Some qual3 ->
      format_records (Tuple4 record1 record2 record3 record4) =
        Ok (seq record4 ++ seq record2,
            Some (fastq_text (name record1) (seq record1) qual1),
            Some (fastq_text (name record1) (seq record3) qual3)) /\
      ((exists line id1 id2 sample more,
           In line (rows_read lines) /\
           map strip (split "," line) = sample :: id1 :: id2 :: more /\
           id2 ++ revcomp id1 = seq record4 ++ seq record2)
       <->
       (exists dest,
           loop_body lev_distance inputargs st
             (Tuple4 record1 record2 record3 record4) =
           Ok (mkState (names st) (Some (Counter.incr outr dest))
                 (FS.write
                    (FS.open_a
                       (FS.write (FS.open_a (fs st) dest) dest
                          (fastq_text (name record1) (seq record1) qual1))
                       (R2_path dest))
                    (R2_path dest)
                    (fastq_text (name record1) (seq record3) qual3))
                 (count st + 1) (dmpd_count st + 1) (fuzzy_count st)
                 (clash_count st) (fuzzies st)))).
Proof.
  intros Hdual Hread.
  apply read_index_dual_file_inv in Hread
    as (path & lines & Hpath & Hlines & _ & _ & Hrows).
  exists path, lines. split; [assumption|]. split; [assumption|].
  assert (Hkeys : forall key,
             In key (PyDict.keys XXd) <->
             exists line id1 id2 sample more,
               In line (rows_read lines) /\
               map strip (split "," line) = sample :: id1 :: id2 :: more /\
               key = id2 ++ revcomp id1).
  { intros key. rewrite (dual_rows_keys _ _ _ _ _ _ _ _ Hrows key). simpl.
    unfold row_has_key. split.
    - intros [[]|(line & Hin & sample & id1 & id2 & more & Hel & Hk)].
      exists line, id1, id2, sample, more. auto.
    - intros (line & id1 & id2 & sample & more & Hin & Hel & Hk).
      right. exists line. split; [assumption|].
      exists sample, id1, id2, more. auto. }
  split; [exact Hkeys|].
  intros st r1 r2 r3 r4 q1 q3 outr Htab Hout Hq1 Hq3. split.
  { unfold format_records. rewrite Hq1, Hq3. reflexivity. }
  split.
  - intros (line & id1 & id2 & sample & more & Hin & Hel & Hk).
    assert (Hkey : In (seq r4 ++ seq r2) (PyDict.keys XXd)).
    { apply Hkeys. exists line, id1, id2, sample, more. auto. }
    apply in_keys_get in Hkey as [v Hv].
    destruct (dual_rows_values _ _ _ _ _ _ _ _ Hrows
                ltac:(intros ? []) v (get_in_values _ _ _ Hv)) as [dest ->].
    exists dest. eapply loop_body_exact_key; eauto.
  - intros [dest Hrun].
    apply loop_body_inv in Hrun
      as (r1' & r2' & r3' & r4' & q1' & q3' & XXd' & outr' & Hrec & _ & _ & _
          & Htab' & _ & Hcases).
    injection Hrec as <- <- <- <-.
    rewrite Htab in Htab'. injection Htab' as <-.
    cbn zeta in Hcases.
    destruct Hcases as [(p & Hget & _)|[(ndx & p & _ & _ & _ & Hst)|(o1 & o2 & _ & _ & _ & _ & Hst)]].
    + apply get_some_in_keys in Hget. apply Hkeys in Hget
        as (line & id1 & id2 & sample & more & Hin & Hel & Hk).
      exists line, id1, id2, sample, more. auto.
    + exfalso. apply (f_equal fuzzy_count) in Hst. simpl in Hst. lia.
    + exfalso. apply (f_equal dmpd_count) in Hst. simpl in Hst. lia.
Qed.

(** S2's key in the table built from the two-sample file comes from a row
    of that file. *)
Lemma dual_index_exact_match_iff_witness :
  exists line id1 id2 sample more,
    In line (rows_read (file_lines Dual.samples_csv)) /\
    map strip (split "," line) = sample :: id1 :: id2 :: more /\
    "AAAAAACCCCCG" = id2 ++ revcomp id1.
Proof.
  destruct (dual_index_exact_match_iff Levenshtein.distance
              (Dual.inputargs 2) Dual.files (fs Dual.start)
              Dual.XXd Dual.outr
              [("S1", "AAAAAACCCCCC"); ("S2", "AAAAAACCCCCG")]
              "Undetermined_R1.fq" "Undetermined_R2.fq" eq_refl eq_refl)
    as (path & lines & Hpath & Hlines & Hkeys & _).
  injection Hpath as <-.
  assert (Hl : Ok lines = Ok (file_lines Dual.samples_csv))
    by (rewrite <- Hlines; reflexivity).
  injection Hl as ->. apply Hkeys. simpl. auto.
Defined.

(** C7 (the code departs from the claim).  The start-up loop checks
    [read1], [read2] and [index1] only.  Here the second index file fails
    [fastq_check], the script still builds its tables and enters the main
    loop, and the read is classified and written to sample S1. *)
Theorem second_index_file_is_not_checked :
  fastq_check UncheckedIndex.files "I2.fq" = Ok false /\
  startup_checks (Dual.inputargs 2) UncheckedIndex.files = Ok tt /\
  readfq UncheckedIndex.files "I2.fq" = Ok [mkRead "read1" "AAAAAA" None] /\
  exists st,
    demultiplex Levenshtein.distance (Dual.inputargs 2) UncheckedIndex.files
      = Ok st /\
    count st = 1%Z /\ dmpd_count st = 1%Z /\
    FS.content (fs st) "S1_R1.fq" = fastq_text "read1" "ACGTAC" "IIIIII" /\
    FS.content (fs st) "S1_R2.fq" = fastq_text "read1" "TTGGCC" "JJJJJJ".
Proof.
  repeat split; try (vm_compute; reflexivity).
  eexists. split; [vm_compute; reflexivity|]. repeat split.
Qed.

(** C8 as stated fails on the identifier.  The third stream's read is
    called "mate7" here; the read is an exact match for S1, and the record
    that reaches S1's second file is headed by the first stream's
    identifier, so it is not the third read's own four-line text. *)
Lemma second_payload_record_borrows_first_identifier :
  let record3 := mkRead "mate7" "TTGGCC" (Some "JJJJJJ") in
  exists st',
    loop_body Levenshtein.distance (Dual.inputargs 2) Dual.start
      (Tuple4 Dual.payload1 (Dual.index1_read "CCCCCC") record3
         Dual.index2_read) = Ok st' /\
    dmpd_count st' = 1%Z /\
    FS.content (fs st') "S1_R1.fq" = fastq_text "read1" "ACGTAC" "IIIIII" /\
    FS.content (fs st') "S1_R2.fq" = fastq_text "read1" "TTGGCC" "JJJJJJ" /\
    FS.content (fs st') "S1_R2.fq" <>
      fastq_text (name record3) (seq record3) "JJJJJJ".
Proof.
  cbv zeta. eexists. split; [vm_compute; reflexivity|].
  repeat split. vm_compute. discriminate.
Qed.

(** C8, amended.  Every read the loop assigns to a sample (exactly or
    fuzzily: [dmpd_count] goes up) comes from four streams with qualities,
    and the two records written for it are four-line FASTQ texts built from
    the payload reads alone: the first from the identifier, sequence and
    quality of stream 1, the second from the identifier of stream 1 and the
    sequence and quality of stream 3.  They go to the sample's file and to
    the name [R2_path] derives from it. *)
Theorem payload_records_written
    (lev_distance : string -> string -> nat) (inputargs : args)
    (st st' : state) (records : read_tuple) :
  loop_body lev_distance inputargs st records = Ok st' ->
  dmpd_count st' = (dmpd_count st + 1)%Z ->
  exists record1 record2 record3 record4 qual1 qual3 dest,
    records = Tuple4 record1 record2 record3 record4 /\
    qual record1 = Some qual1 /\
    qual record3 = Some qual3 /\
    let new_record1 := fastq_text (name record1) (seq record1) qual1 in
    let new_record2 := fastq_text (name record1) (seq record3) qual3 in
    fs st' =
      FS.write
        (FS.open_a (FS.write (FS.open_a (fs st) dest) dest new_record1)
           (R2_path dest))
        (R2_path dest) new_record2
    \/
    fs st' =
      FS.write
        (FS.write (FS.open_a (FS.open_a (fs st) dest) (R2_path dest))
           dest new_record1)
        (R2_path dest) new_record2.
Proof.
  intros Hrun Hdmpd.
  apply loop_body_inv in Hrun
    as (r1 & r2 & r3 & r4 & q1 & q3 & XXd & outr & -> & _ & Hq1 & Hq3 & _ & _
        & Hcases).
  cbn zeta in Hcases.
  destruct Hcases
    as [(dest & _ & ->)|[(ndx & dest & _ & _ & _ & ->)|(o1 & o2 & _ & _ & _ & _ & ->)]].
  - exists r1, r2, r3, r4, q1, q3, dest. repeat (split; [assumption || reflexivity|]).
    left. reflexivity.
  - exists r1, r2, r3, r4, q1, q3, dest. repeat (split; [assumption || reflexivity|]).
    right. reflexivity.
  - simpl in Hdmpd. lia.
Qed.

(** The fuzzily matched read of the example. *)
Lemma payload_records_written_witness :
  exists record1 record2 record3 record4 qual1 qual3 dest,
    Dual.records "CCACCC" = Tuple4 record1 record2 record3 record4 /\
    qual record1 = Some qual1 /\
    qual record3 = Some qual3 /\
    let new_record1 := fastq_text (name record1) (seq record1) qual1 in
    let new_record2 := fastq_text (name record1) (seq record3) qual3 in
    fs (Dual.after 1 "CCACCC") =
      FS.write
        (FS.open_a
           (FS.write (FS.open_a (fs Dual.start) dest) dest new_record1)
           (R2_path dest))
        (R2_path dest) new_record2
    \/
    fs (Dual.after 1 "CCACCC") =
      FS.write
        (FS.write (FS.open_a (FS.open_a (fs Dual.start) dest) (R2_path dest))
           dest new_record1)
        (R2_path dest) new_record2.
Proof.
  apply (payload_records_written Levenshtein.distance (Dual.inputargs 1)
           Dual.start (Dual.after 1 "CCACCC") (Dual.records "CCACCC"));
    reflexivity.
Defined.

(** C9.  From the start of the main loop, after any number of iterations
    that the loop completes, the counts of [outputreads] add up to [count],
    the number of tuples read; and one more iteration adds one to [count]
    and one to exactly one entry of [outputreads]. *)
Theorem read_counts_are_conserved
    (lev_distance : string -> string -> nat) (inputargs : args)
    (files : FS.t) (st0 st : state) (zipfqs : list read_tuple) :
  startup_checks inputargs files = Ok tt ->
  build_tables inputargs files = Ok st0 ->
  for_loop lev_distance inputargs st0 zipfqs = Ok st ->
  exists c,
    outputreads st = Some c /\
    Counter.total c = count st /\
    count st = Z.of_nat (List.length zipfqs) /\
    forall records st',
      loop_body lev_distance inputargs st records = Ok st' ->
      exists k,
        outputreads st' = Some (Counter.incr c k) /\
        Counter.total (Counter.incr c k) = count st' /\
        count st' = (count st + 1)%Z.
Proof.
  intros Hstart Hbuild Hloop.
  destruct (build_tables_zero _ _ _ Hstart Hbuild) as (c0 & Hc0 & Hzero & Hcount0).
  destruct (for_loop_counts _ _ _ _ _ _ Hc0 Hloop) as (c & Hc & Htotal & Hcount).
  exists c. repeat split; auto; try lia.
  intros records st' Hbody.
  apply loop_body_counts in Hbody as (c1 & k & Hc1 & Hc' & Hcount').
  rewrite Hc in Hc1. injection Hc1 as <-.
  exists k. rewrite total_incr. repeat split; auto; lia.
Qed.

(** The four reads of the example: one is counted for each branch, and the
    counts add up to four. *)
Lemma read_counts_are_conserved_witness :
  exists c,
    outputreads Dual.finish = Some c /\
    Counter.total c = count Dual.finish /\
    count Dual.finish = Z.of_nat (List.length Dual.tuples) /\
    forall records st',
      loop_body Levenshtein.distance (Dual.inputargs 2) Dual.finish records
        = Ok st' ->
      exists k,
        outputreads st' = Some (Counter.incr c k) /\
        Counter.total (Counter.incr c k) = count st' /\
        count st' = (count Dual.finish + 1)%Z.
Proof.
  apply (read_counts_are_conserved Levenshtein.distance (Dual.inputargs 2)
           Dual.files Dual.start Dual.finish Dual.tuples);
    reflexivity.
Defined.

(** C10.  [fastq_check] returns a verdict exactly on files of at least four
    lines: on a shorter file, the empty file included, one of [read[0]],
    [read[2]], [read[3]] is out of range and the call ends in [IndexError]
    instead of returning [False]. *)
Theorem fastq_check_needs_four_lines
    (files : FS.t) (infile text : string) :
  PyDict.get files infile = Some text ->
  (List.length (file_lines text) < 4 ->
   fastq_check files infile = Raise IndexError) /\
  (4 <= List.length (file_lines text) ->
   exists verdict, fastq_check files infile = Ok verdict).
Proof.
  intros Hfile. unfold fastq_check, FS.read_lines. rewrite Hfile.
  cbn [bind]. pose proof (file_lines_nonempty text) as Hne.
  destruct (file_lines text) as [|l0 [|l1 [|l2 [|l3 rest]]]]; simpl; split;
    try lia; intros _.
  - reflexivity.
  - destruct l0; reflexivity.
  - destruct l0; reflexivity.
  - destruct l0; [reflexivity|]. destruct l2; reflexivity.
  - destruct l0 as [|c0 l0]; [exfalso; apply (Hne ""); simpl; auto|].
    destruct l2 as [|c2 l2]; [exfalso; apply (Hne ""); simpl; auto|].
    cbn. eauto.
Qed.

(** The empty file, and a file cut after its third line. *)
Lemma fastq_check_needs_four_lines_witness :
  fastq_check [("empty.fq", "")] "empty.fq" = Raise IndexError /\
  fastq_check [("cut.fq", "@read1" ++ NL ++ "ACGT" ++ NL ++ "+" ++ NL)] "cut.fq"
    = Raise IndexError /\
  exists verdict,
    fastq_check Dual.files "R1.fq" = Ok verdict.
Proof.
  split; [|split].
  - apply (fastq_check_needs_four_lines [("empty.fq", "")] "empty.fq" "" eq_refl).
    simpl. lia.
  - apply (fastq_check_needs_four_lines
             [("cut.fq", "@read1" ++ NL ++ "ACGT" ++ NL ++ "+" ++ NL)] "cut.fq"
             ("@read1" ++ NL ++ "ACGT" ++ NL ++ "+" ++ NL) eq_refl).
    simpl. lia.
  - apply (fastq_check_needs_four_lines Dual.files "R1.fq"
             (Dual.one_read_fastq "read1 1:N:0" "ACGTAC" "IIIIII") eq_refl).
    simpl. lia.
Defined.

(* ------------------------------------------------------------------ *)
(** ** Further properties of the script                                *)
(* ------------------------------------------------------------------ *)

Section StringFacts.

Lemma append_assoc_string (a b c : string) : (a ++ b) ++ c = a ++ (b ++ c).
Proof. induction a as [|x a IH]; simpl; [reflexivity|now rewrite IH]. Qed.

Lemma append_empty_r (a : string) : a ++ EmptyString = a.
Proof. induction a as [|x a IH]; simpl; [reflexivity|now rewrite IH]. Qed.

Lemma length_append (a b : string) :
  String.length (a ++ b) = String.length a + String.length b.
Proof. induction a as [|x a IH]; simpl; [reflexivity|now rewrite IH]. Qed.

Lemma all_chars_append p (a b : string) :
  all_chars p (a ++ b) = all_chars p a && all_chars p b.
Proof.
  induction a as [|x a IH]; simpl; [reflexivity|].
  rewrite IH. now rewrite andb_assoc.
Qed.

Lemma drop_last_append_char (s : string) (c : ascii) :
  drop_last (s ++ String c EmptyString) = s.
Proof.
  induction s as [|x s IH]; [reflexivity|].
  simpl. destruct (s ++ String c EmptyString) eqn:E.
  - destruct s; discriminate.
  - f_equal. exact IH.
Qed.

Lemma length_drop_last (l : string) :
  String.length (drop_last l) = String.length l - 1.
Proof.
  induction l as [|x l IH]; [reflexivity|].
  destruct l as [|y l]; [reflexivity|].
  change (drop_last (String x (String y l)))
    with (String x (drop_last (String y l))).
  simpl String.length in *. rewrite IH. lia.
Qed.

(** A line of a file: how [iter_lines] cuts a text at the first line
    terminator. *)
Lemma iter_lines_terminated (s rest : string) :
  one_line s = true ->
  forall line,
    iter_lines (s ++ NL ++ rest) line false =
    (line ++ s ++ NL) :: iter_lines rest EmptyString false.
Proof.
  induction s as [|c s IH]; intros Hs line.
  - reflexivity.
  - simpl in Hs. apply andb_prop in Hs as [Hc Hs].
    apply andb_prop in Hc as [Hlf Hcr].
    apply negb_true_iff in Hlf, Hcr.
    change ((String c s ++ NL ++ rest)) with (String c (s ++ NL ++ rest)).
    cbn [iter_lines]. rewrite Hlf, Hcr, (IH Hs).
    rewrite append_assoc_string. reflexivity.
Qed.

Lemma iter_lines_unterminated (s : string) :
  one_line s = true ->
  forall line,
    iter_lines s line false =
    match line ++ s with
    | EmptyString => []
    | l => [l]
    end.
Proof.
  induction s as [|c s IH]; intros Hs line.
  - simpl. rewrite append_empty_r. destruct line; reflexivity.
  - simpl in Hs. apply andb_prop in Hs as [Hc Hs].
    apply andb_prop in Hc as [Hlf Hcr].
    apply negb_true_iff in Hlf, Hcr.
    cbn [iter_lines]. rewrite Hlf, Hcr, (IH Hs).
    rewrite append_assoc_string. reflexivity.
Qed.

Lemma file_lines_terminated (s rest : string) :
  one_line s = true ->
  file_lines (s ++ NL ++ rest) = (s ++ NL) :: file_lines rest.
Proof. intros Hs. apply (iter_lines_terminated s rest Hs EmptyString). Qed.

End StringFacts.

(** X1.  On a file whose first four lines are terminated, [fastq_check]
    returns whether the first line begins with "@", the third with "+", and
    the second and fourth have the same length; what follows the fourth line
    is not looked at. *)
Theorem fastq_check_verdict
    (files : FS.t) (infile l1 l2 l3 l4 rest : string) :
  PyDict.get files infile =
    Some (l1 ++ NL ++ l2 ++ NL ++ l3 ++ NL ++ l4 ++ NL ++ rest) ->
  one_line l1 = true -> one_line l2 = true ->
  one_line l3 = true -> one_line l4 = true ->
  fastq_check files infile =
  Ok (first_char_in "@" l1 && first_char_in "+" l3 &&
      Nat.eqb (String.length l2) (String.length l4)).
Proof.
  intros Hfile H1 H2 H3 H4.
  unfold fastq_check, FS.read_lines. rewrite Hfile. cbn [bind].
  rewrite (file_lines_terminated l1), (file_lines_terminated l2),
    (file_lines_terminated l3), (file_lines_terminated l4) by assumption.
  cbn [firstn list_item nth_error bind].
  rewrite !length_append. cbn [String.length NL].
  replace (String.length l2 + 1 =? String.length l4 + 1)%nat
    with (String.length l2 =? String.length l4)%nat
    by (destruct (Nat.eqb_spec (String.length l2) (String.length l4));
        destruct (Nat.eqb_spec (String.length l2 + 1) (String.length l4 + 1));
        auto; lia).
  destruct l1 as [|c1 l1], l3 as [|c3 l3]; cbn;
    repeat match goal with
           | |- context [Ascii.eqb ?a ?b] => destruct (Ascii.eqb a b)
           | |- context [Nat.eqb ?a ?b] => destruct (Nat.eqb a b)
           end; reflexivity.
Qed.

(** A record of ten bases passes with ten quality characters and fails
    with nine. *)
Lemma fastq_check_verdict_witness :
  fastq_check
    [("ok.fq", "@r1" ++ NL ++ "ACGTACGTAC" ++ NL ++ "+" ++ NL ++ "IIIIIIIIII"
               ++ NL ++ "")] "ok.fq" = Ok true /\
  fastq_check
    [("short.fq", "@r1" ++ NL ++ "ACGTACGTAC" ++ NL ++ "+" ++ NL ++ "IIIIIIIII"
                  ++ NL ++ "")] "short.fq" = Ok false.
Proof.
  split.
  - apply (fastq_check_verdict _ "ok.fq" "@r1" "ACGTACGTAC" "+" "IIIIIIIIII" "");
      reflexivity.
  - apply (fastq_check_verdict _ "short.fq" "@r1" "ACGTACGTAC" "+" "IIIIIIIII" "");
      reflexivity.
Defined.

(** X2.  The lengths compared are those of the lines with their
    terminators.  On a four-line file whose last line is not terminated the
    check therefore asks for one quality character more than there are bases:
    a single record with as many quality characters as bases, written
    without a final newline, is turned down. *)
Theorem fastq_check_unterminated_last_line
    (files : FS.t) (infile l1 l2 l3 l4 : string) :
  PyDict.get files infile = Some (l1 ++ NL ++ l2 ++ NL ++ l3 ++ NL ++ l4) ->
  one_line l1 = true -> one_line l2 = true ->
  one_line l3 = true -> one_line l4 = true ->
  l4 <> EmptyString ->
  fastq_check files infile =
  Ok (first_char_in "@" l1 && first_char_in "+" l3 &&
      Nat.eqb (S (String.length l2)) (String.length l4)).
Proof.
  intros Hfile H1 H2 H3 H4 Hne.
  unfold fastq_check, FS.read_lines. rewrite Hfile. cbn [bind].
  rewrite (file_lines_terminated l1), (file_lines_terminated l2),
    (file_lines_terminated l3) by assumption.
  unfold file_lines. rewrite (iter_lines_unterminated l4 H4). cbn [append].
  destruct l4 as [|c4 l4]; [contradiction|].
  cbn [firstn list_item nth_error bind].
  rewrite !length_append. cbn [String.length NL].
  replace (String.length l2 + 1 =? S (String.length l4))%nat
    with (S (String.length l2) =? S (String.length l4))%nat
    by (f_equal; lia).
  destruct l1 as [|c1 l1], l3 as [|c3 l3]; cbn;
    repeat match goal with
           | |- context [Ascii.eqb ?a ?b] => destruct (Ascii.eqb a b)
           | |- context [Nat.eqb ?a ?b] => destruct (Nat.eqb a b)
           end; reflexivity.
Qed.

Lemma fastq_check_unterminated_last_line_witness :
  fastq_check
    [("one.fq", "@r1" ++ NL ++ "ACGT" ++ NL ++ "+" ++ NL ++ "IIII")] "one.fq"
  = Ok false.
Proof.
  apply (fastq_check_unterminated_last_line _ "one.fq" "@r1" "ACGT" "+" "IIII");
    try reflexivity. discriminate.
Defined.

Section ReadfqFacts.

Lemma split_without_separator (sep : ascii) (s : string) :
  all_chars (fun c => negb (Ascii.eqb c sep)) s = true ->
  split sep s = [s].
Proof.
  induction s as [|c s IH]; simpl; intros H; [reflexivity|].
  apply andb_prop in H as [Hc Hs]. apply negb_true_iff in Hc.
  rewrite Hc, (IH Hs). reflexivity.
Qed.

(** The lines of a file that begins with the four-line text of a read. *)
Lemma file_lines_fastq_text (id bases quality rest : string) :
  one_line id = true -> one_line bases = true -> one_line quality = true ->
  file_lines (fastq_text id bases quality ++ rest) =
  (String "@" id ++ NL) :: (bases ++ NL) :: ("+" ++ NL) :: (quality ++ NL)
  :: file_lines rest.
Proof.
  intros Hid Hb Hq. unfold fastq_text. rewrite !append_assoc_string.
  change (file_lines
            (String "@" id ++ NL ++ bases ++ NL ++ "+" ++ NL ++ quality ++ NL ++ rest)
          = (String "@" id ++ NL) :: (bases ++ NL) :: ("+" ++ NL)
            :: (quality ++ NL) :: file_lines rest).
  rewrite (file_lines_terminated (String "@" id)) by exact Hid.
  rewrite (file_lines_terminated bases) by assumption.
  rewrite (file_lines_terminated "+") by reflexivity.
  rewrite (file_lines_terminated quality) by assumption.
  reflexivity.
Qed.

(** The steps of [readfq] on one line. *)
Lemma readfq_header (id : string) (fp : list string) :
  readfq_from ((String "@" id ++ NL) :: fp) Seeking =
  readfq_from fp (InSequence (header_name (String "@" id)) []).
Proof.
  assert (Hd : drop_last (String "@" id ++ NL) = String "@" id)
    by apply drop_last_append_char.
  assert (Hf : first_char_in ">@" (String "@" id ++ NL) = true) by reflexivity.
  remember (String "@" id ++ NL) as l.
  cbn [readfq_from]. rewrite Hf, Hd. reflexivity.
Qed.

Lemma readfq_sequence_line (s name : string) (seqs fp : list string) :
  first_char_in "@+>" (s ++ NL) = false ->
  readfq_from ((s ++ NL) :: fp) (InSequence name seqs) =
  readfq_from fp (InSequence name (seqs ++ [s])).
Proof.
  intros Hf.
  assert (Hd : drop_last (s ++ NL) = s) by apply drop_last_append_char.
  remember (s ++ NL) as l.
  cbn [readfq_from]. rewrite Hf, Hd. reflexivity.
Qed.

Lemma readfq_separator (name : string) (seqs fp : list string) :
  readfq_from (("+" ++ NL) :: fp) (InSequence name seqs) =
  readfq_from fp (InQuality name (join seqs) 0 []).
Proof. reflexivity. Qed.

Lemma readfq_quality_line (q name bases : string) (leng : nat)
    (seqs fp : list string) :
  readfq_from ((q ++ NL) :: fp) (InQuality name bases leng seqs) =
  if Nat.leb (String.length bases) (leng + String.length q)
  then mkRead name bases (Some (join (seqs ++ [q]))) :: readfq_from fp Seeking
  else readfq_from fp
         (InQuality name bases (leng + String.length q) (seqs ++ [q])).
Proof.
  assert (Hd : drop_last (q ++ NL) = q) by apply drop_last_append_char.
  assert (Hl : String.length (q ++ NL) - 1 = String.length q)
    by (rewrite length_append; simpl; lia).
  remember (q ++ NL) as l.
  cbn [readfq_from]. rewrite Hd, Hl. reflexivity.
Qed.

(** [readfq] on the four lines of a well-formed read. *)
Lemma readfq_from_record (r : read) (fp : list string) :
  fastq_record r = true ->
  forall q, qual r = Some q ->
  readfq_from
    ((String "@" (name r) ++ NL) :: (seq r ++ NL) :: ("+" ++ NL) :: (q ++ NL) :: fp)
    Seeking
  = r :: readfq_from fp Seeking.
Proof.
  intros Hr q Hq. unfold fastq_record in Hr. rewrite Hq in Hr.
  apply andb_prop in Hr as [Hr Hqual].
  apply andb_prop in Hqual as [Hq1 Hlen]. apply Nat.eqb_eq in Hlen.
  apply andb_prop in Hr as [Hr Hfirst]. apply negb_true_iff in Hfirst.
  apply andb_prop in Hr as [Hr Hs1].
  apply andb_prop in Hr as [Hn1 Hn2].
  destruct r as [n s qo]. cbn [name seq qual] in *. subst qo.
  assert (Hname : header_name (String "@" n) = n).
  { unfold header_name. simpl slice_from.
    rewrite split_without_separator by exact Hn2. reflexivity. }
  assert (Hseq : first_char_in "@+>" (s ++ NL) = false).
  { destruct s; [reflexivity|exact Hfirst]. }
  rewrite readfq_header, Hname, (readfq_sequence_line s) by exact Hseq.
  rewrite readfq_separator, readfq_quality_line.
  cbn [app join String.concat].
  replace (String.length s <=? 0 + String.length q)%nat with true
    by (symmetry; apply Nat.leb_le; lia).
  reflexivity.
Qed.

Lemma header_name_no_space (last : string) : no_space (header_name last) = true.
Proof.
  unfold header_name. generalize (slice_from 1 last). intros s.
  induction s as [|c s IH]; [reflexivity|].
  cbn [split]. destruct (Ascii.eqb c " ") eqn:E; [reflexivity|].
  destruct (split " " s) as [|h t]; cbn [hd] in *; unfold no_space in *;
    cbn [all_chars]; rewrite E; [reflexivity|exact IH].
Qed.

Lemma length_join_snoc (seqs : list string) (x : string) :
  String.length (join (seqs ++ [x])) = String.length (join seqs) + String.length x.
Proof.
  unfold join. induction seqs as [|y seqs IH]; [reflexivity|].
  destruct seqs as [|z seqs].
  - simpl. rewrite length_append. reflexivity.
  - change ((y :: z :: seqs) ++ [x])%list with (y :: (z :: seqs) ++ [x])%list.
    change (String.concat "" (y :: (z :: seqs) ++ [x]))
      with (y ++ "" ++ String.concat "" ((z :: seqs) ++ [x])%list).
    change (String.concat "" (y :: z :: seqs))
      with (y ++ "" ++ String.concat "" (z :: seqs)).
    rewrite !length_append, IH. simpl String.length. lia.
Qed.

(** What holds of every record [readfq] yields, from any point of a file
    on: [leng] counts the quality characters collected so far. *)
Lemma readfq_from_records (fp : list string) :
  forall s,
    match s with
    | Seeking => True
    | InSequence name _ => no_space name = true
    | InQuality name _ leng seqs =>
        no_space name = true /\ leng = String.length (join seqs)
    end ->
    forall r, In r (readfq_from fp s) ->
      no_space (name r) = true /\
      forall q, qual r = Some q -> String.length (seq r) <= String.length q.
Proof.
  induction fp as [|l fp IH]; intros s Hs r Hin.
  - destruct s; simpl in Hin.
    + destruct Hin.
    + destruct Hin as [<-|[]]. simpl. split; [exact Hs|discriminate].
    + destruct Hin as [<-|[]]. simpl. split; [apply Hs|discriminate].
  - destruct s as [|name seqs|name bases leng seqs]; cbn [readfq_from] in Hin.
    + destruct (first_char_in ">@" l); [|apply (IH Seeking I r Hin)].
      destruct (drop_last l) as [|c last] eqn:E; [destruct Hin|].
      apply (IH (InSequence (header_name (String c last)) [])
               (header_name_no_space _) r Hin).
    + destruct (first_char_in "@+>" l); [|apply (IH (InSequence name _) Hs r Hin)].
      destruct (drop_last l) as [|c last] eqn:E.
      * destruct Hin as [<-|[]]. simpl. split; [exact Hs|discriminate].
      * destruct (negb (Ascii.eqb c "+")).
        -- destruct Hin as [<-|Hin].
           ++ simpl. split; [exact Hs|discriminate].
           ++ apply (IH (InSequence (header_name (String c last)) [])
                      (header_name_no_space _) r Hin).
        -- apply (IH (InQuality name (join seqs) 0 []) (conj Hs eq_refl) r Hin).
    + destruct Hs as [Hname Hleng].
      assert (Hnew : leng + (String.length l - 1) =
                     String.length (join (seqs ++ [drop_last l])))
        by (rewrite length_join_snoc, length_drop_last; lia).
      destruct (Nat.leb_spec (String.length bases) (leng + (String.length l - 1)))
        as [Hle|Hlt].
      * destruct Hin as [<-|Hin]; [|apply (IH Seeking I r Hin)].
        simpl. split; [exact Hname|]. intros q [= <-]. lia.
      * apply (IH (InQuality name bases _ _) (conj Hname Hnew) r Hin).
Qed.

End ReadfqFacts.

(** X3.  [readfq] reads back what the four-line format writes: on a file
    that is the concatenation of the texts of well-formed reads (one-word
    identifier, bases on one line not beginning with "@", "+" or ">", one
    quality character per base) it yields exactly those reads, in order. *)
Theorem readfq_reads_back
    (files : FS.t) (path : string) (reads : list read) :
  PyDict.get files path = Some (fastq_file reads) ->
  forallb fastq_record reads = true ->
  readfq files path = Ok reads.
Proof.
  intros Hfile Hreads. unfold readfq, FS.read_lines. rewrite Hfile.
  cbn [bind]. f_equal. clear Hfile.
  induction reads as [|r reads IH]; [reflexivity|].
  cbn [forallb] in Hreads. apply andb_prop in Hreads as [Hr Hrest].
  cbn [fastq_file]. unfold read_text.
  destruct (qual r) as [q|] eqn:Hq.
  - assert (H := Hr). unfold fastq_record in H. rewrite Hq in H.
    apply andb_prop in H as [H Hqual].
    apply andb_prop in Hqual as [Hq1 _].
    apply andb_prop in H as [H _].
    apply andb_prop in H as [H Hs1].
    apply andb_prop in H as [Hn1 _].
    rewrite file_lines_fastq_text by assumption.
    rewrite (readfq_from_record r _ Hr q Hq), (IH Hrest). reflexivity.
  - unfold fastq_record in Hr. rewrite Hq in Hr.
    rewrite !andb_false_r in Hr. discriminate.
Qed.

(** The two payload records the example writes for its first tuple. *)
Lemma readfq_reads_back_witness :
  readfq
    [("S1_R1.fq", fastq_file [Dual.payload1; Dual.payload2])] "S1_R1.fq"
  = Ok [Dual.payload1; Dual.payload2].
Proof.
  apply (readfq_reads_back _ "S1_R1.fq" [Dual.payload1; Dual.payload2]);
    reflexivity.
Defined.

(** X4.  Every record [readfq] yields, on any file, has an identifier
    without a space, and when it has a quality string that string is at
    least as long as the sequence (longer when the last quality line read
    overshoots). *)
Theorem readfq_records
    (files : FS.t) (path : string) (reads : list read) (r : read) :
  readfq files path = Ok reads ->
  In r reads ->
  no_space (name r) = true /\
  forall q, qual r = Some q -> String.length (seq r) <= String.length q.
Proof.
  unfold readfq, FS.read_lines. intros Hread Hin.
  destruct (PyDict.get files path); [|discriminate].
  cbn [bind] in Hread. injection Hread as <-.
  exact (readfq_from_records _ Seeking I r Hin).
Qed.

Lemma readfq_records_witness :
  no_space (name (mkRead "read1" "ACGTAC" (Some "IIIIII"))) = true /\
  forall q,
    qual (mkRead "read1" "ACGTAC" (Some "IIIIII")) = Some q ->
    String.length (seq (mkRead "read1" "ACGTAC" (Some "IIIIII")))
    <= String.length q.
Proof.
  apply (readfq_records Dual.files "R1.fq"
           [mkRead "read1" "ACGTAC" (Some "IIIIII")]);
    [reflexivity|left; reflexivity].
Defined.

(** X5.  A record whose quality block is cut short by the end of the file
    is yielded without quality: after any number of well-formed reads, a
    last record with fewer quality characters than bases comes out with
    [qual = None]. *)
Theorem readfq_truncated_quality
    (files : FS.t) (path : string) (reads : list read)
    (id bases quality : string) :
  PyDict.get files path =
    Some (fastq_file reads ++ fastq_text id bases quality) ->
  forallb fastq_record reads = true ->
  one_line id = true -> no_space id = true ->
  one_line bases = true -> first_char_in "@+>" bases = false ->
  one_line quality = true ->
  String.length quality < String.length bases ->
  readfq files path = Ok (reads ++ [mkRead id bases None])%list.
Proof.
  intros Hfile Hreads Hid Hsp Hb Hfirst Hq Hshort.
  unfold readfq, FS.read_lines. rewrite Hfile.
  cbn [bind]. f_equal. clear Hfile.
  induction reads as [|r reads IH].
  - cbn [fastq_file app append].
    rewrite <- (append_empty_r (fastq_text id bases quality)).
    rewrite file_lines_fastq_text by assumption.
    assert (Hname : header_name (String "@" id) = id).
    { unfold header_name. simpl slice_from.
      rewrite split_without_separator by exact Hsp. reflexivity. }
    assert (Hseq : first_char_in "@+>" (bases ++ NL) = false).
    { destruct bases; [reflexivity|exact Hfirst]. }
    rewrite readfq_header, Hname, (readfq_sequence_line bases) by exact Hseq.
    rewrite readfq_separator, readfq_quality_line.
    cbn [app join String.concat].
    replace (String.length bases <=? 0 + String.length quality)%nat with false
      by (symmetry; apply Nat.leb_gt; lia).
    reflexivity.
  - cbn [forallb] in Hreads. apply andb_prop in Hreads as [Hr Hrest].
    cbn [fastq_file app]. unfold read_text.
    destruct (qual r) as [q|] eqn:Hqr.
    + assert (H := Hr). unfold fastq_record in H. rewrite Hqr in H.
      apply andb_prop in H as [H Hqual].
      apply andb_prop in Hqual as [Hq1 _].
      apply andb_prop in H as [H _].
      apply andb_prop in H as [H Hs1].
      apply andb_prop in H as [Hn1 _].
      rewrite append_assoc_string.
      rewrite file_lines_fastq_text by assumption.
      rewrite (readfq_from_record r _ Hr q Hqr), (IH Hrest). reflexivity.
    + unfold fastq_record in Hr. rewrite Hqr in Hr.
      rewrite !andb_false_r in Hr. discriminate.
Qed.

Lemma readfq_truncated_quality_witness :
  readfq
    [("cut.fq", fastq_file [Dual.payload1] ++ fastq_text "read2" "ACGTAC" "III")]
    "cut.fq"
  = Ok ([Dual.payload1] ++ [mkRead "read2" "ACGTAC" None])%list.
Proof.
  apply (readfq_truncated_quality _ "cut.fq" [Dual.payload1] "read2" "ACGTAC" "III");
    try reflexivity.
  simpl. lia.
Defined.


Section SampleTableFacts.

Lemma dual_rows_stop_at_blank suffix rows ignored :
  forall X O U,
    dual_rows suffix (rows ++ NL :: ignored) X O U = dual_rows suffix rows X O U.
Proof.
  induction rows as [|line rows IH]; intros X O U.
  - reflexivity.
  - cbn [app dual_rows]. destruct (String.eqb line NL); [reflexivity|].
    destruct (list_item (map strip (split "," line)) 0); try reflexivity.
    cbn [bind].
    destruct (list_item (map strip (split "," line)) 1); try reflexivity.
    cbn [bind].
    destruct (list_item (map strip (split "," line)) 2); try reflexivity.
    cbn [bind]. apply IH.
Qed.

Lemma single_rows_stop_at_blank suffix rows ignored :
  forall files X O U,
    single_rows suffix (rows ++ NL :: ignored) files X O U =
    single_rows suffix rows files X O U.
Proof.
  induction rows as [|line rows IH]; intros files X O U.
  - reflexivity.
  - cbn [app single_rows]. destruct (String.eqb line NL); [reflexivity|].
    destruct (list_item (split "," (strip_newlines line)) 0); try reflexivity.
    cbn [bind].
    destruct (list_item (split "," (strip_newlines line)) 1); try reflexivity.
    cbn [bind]. destruct (PyDict.item X1dict a0); try reflexivity. cbn [bind].
    destruct (list_item (split "," (strip_newlines line)) 2); try reflexivity.
    cbn [bind]. destruct (PyDict.item X2dict a2); try reflexivity. cbn [bind].
    apply IH.
Qed.

(** A key no later row stands for keeps its entry. *)
Lemma dual_rows_get_frame suffix lines key :
  forall X O U X' O' U',
    dual_rows suffix lines X O U = Ok (X', O', U') ->
    (forall line, In line (rows_read lines) -> ~ row_has_key line key) ->
    PyDict.get X' key = PyDict.get X key.
Proof.
  induction lines as [|line rest IH]; intros X O U X' O' U' Hrun Hfree;
    simpl in Hrun.
  - now injection Hrun as <- <- <-.
  - simpl in Hfree. destruct (String.eqb line NL).
    + now injection Hrun as <- <- <-.
    + destruct (map strip (split "," line))
        as [|sample [|id1 [|id2 more]]] eqn:Hel;
        try discriminate.
      cbn [bind list_item nth_error] in Hrun.
      rewrite (IH _ _ _ _ _ _ Hrun) by (intros l Hl; apply Hfree; now right).
      apply get_set_other. intros <-.
      apply (Hfree line (or_introl eq_refl)).
      exists sample, id1, id2, more. auto.
Qed.

End SampleTableFacts.

(** X6.  Both table readers stop at the first empty line of the sample
    table: the rows after it, whatever they hold, leave no trace in the
    tables and raise no error. *)
Theorem sample_table_ends_at_empty_line
    (suffix : string) (rows ignored : list string) (files : FS.t)
    (XXd : PyDict.t pyval) (outr : Counter.t) (used : PyDict.t string) :
  dual_rows suffix (rows ++ NL :: ignored) XXd outr used =
    dual_rows suffix rows XXd outr used /\
  single_rows suffix (rows ++ NL :: ignored) files XXd outr used =
    single_rows suffix rows files XXd outr used.
Proof.
  split; [apply dual_rows_stop_at_blank|apply single_rows_stop_at_blank].
Qed.

(** X7.  In dual-index mode a row with fewer than three comma-separated
    fields (a line of blanks, a row cut short) stops the script with
    [IndexError], wherever it stands before the first empty line. *)
Theorem dual_table_short_row
    (suffix line : string) (lines : list string)
    (XXd : PyDict.t pyval) (outr : Counter.t) (used : PyDict.t string) :
  In line (rows_read lines) ->
  List.length (split "," line) < 3 ->
  dual_rows suffix lines XXd outr used = Raise IndexError.
Proof.
  revert XXd outr used.
  induction lines as [|l rest IH]; intros X O U Hin Hshort; simpl in Hin.
  - destruct Hin.
  - cbn [dual_rows]. destruct (String.eqb l NL); [destruct Hin|].
    destruct (map strip (split "," l)) as [|sample [|id1 [|id2 more]]] eqn:Hel;
      try reflexivity.
    cbn [bind list_item nth_error].
    destruct Hin as [->|Hin]; [|now apply IH].
    apply (f_equal (@List.length string)) in Hel.
    rewrite length_map in Hel. simpl in Hel. lia.
Qed.

Lemma dual_table_short_row_witness :
  dual_rows ".fq" ["S1,GGGGGG,AAAAAA" ++ NL; "   " ++ NL; "S2,CGGGGG,AAAAAA" ++ NL]
    PyDict.empty PyDict.empty PyDict.empty = Raise IndexError.
Proof.
  apply (dual_table_short_row ".fq" ("   " ++ NL)).
  - simpl. auto.
  - simpl. lia.
Defined.

(** X8.  In dual-index mode the entry of a compound index is the R1 file
    name of the last row that stands for it: when two rows of the sample
    table carry the same pair of indexes, the later sample takes all the
    reads. *)
Theorem dual_table_last_row_wins
    (suffix : string) (lines before after : list string)
    (line sample id1 id2 : string) (more : list string)
    (XXd0 XXd : PyDict.t pyval) (outr0 outr : Counter.t)
    (used0 used : PyDict.t string) :
  dual_rows suffix lines XXd0 outr0 used0 = Ok (XXd, outr, used) ->
  rows_read lines = (before ++ line :: after)%list ->
  map strip (split "," line) = sample :: id1 :: id2 :: more ->
  (forall l, In l after -> ~ row_has_key l (id2 ++ revcomp id1)) ->
  PyDict.get XXd (id2 ++ revcomp id1) = Some (Str (sample ++ "_R1" ++ suffix)).
Proof.
  revert lines XXd0 outr0 used0.
  induction before as [|b before IH]; intros lines X O U Hrun Hrows Hel Hafter.
  - destruct lines as [|l rest]; [discriminate|].
    cbn [rows_read dual_rows app] in *.
    destruct (String.eqb l NL); [discriminate|].
    injection Hrows as -> Hrest.
    rewrite Hel in Hrun. cbn [bind list_item nth_error] in Hrun.
    rewrite (dual_rows_get_frame _ _ _ _ _ _ _ _ _ Hrun)
      by (rewrite Hrest; exact Hafter).
    apply get_set_same.
  - destruct lines as [|l rest]; [discriminate|].
    cbn [rows_read dual_rows app] in *.
    destruct (String.eqb l NL); [discriminate|].
    injection Hrows as -> Hrest.
    destruct (map strip (split "," b)) as [|s0 [|i1 [|i2 m0]]];
      try discriminate.
    cbn [bind list_item nth_error] in Hrun.
    eapply IH; eauto.
Qed.

Lemma dual_table_last_row_wins_witness :
  PyDict.get
    [("AAAAAACCCCCC", Str "S2_R1.fq")] ("AAAAAA" ++ revcomp "GGGGGG")
  = Some (Str ("S2" ++ "_R1" ++ ".fq")).
Proof.
  apply (dual_table_last_row_wins ".fq"
           ["S1,GGGGGG,AAAAAA" ++ NL; "S2,GGGGGG,AAAAAA" ++ NL]
           ["S1,GGGGGG,AAAAAA" ++ NL] [] ("S2,GGGGGG,AAAAAA" ++ NL)
           "S2" "GGGGGG" "AAAAAA" []
           PyDict.empty _ PyDict.empty
           [("S1", 0%Z); ("S2", 0%Z)] PyDict.empty
           [("S1", "AAAAAACCCCCC"); ("S2", "AAAAAACCCCCC")]);
    try reflexivity.
  intros l [].
Defined.

(** X9.  In single-index mode the index fields are looked up as they are
    written, without stripping: after any number of rows that are taken in,
    the first row whose first index is no key of [X1dict] stops the script
    with [KeyError] on that field, [" 1"] for a field written with a
    blank. *)
Theorem single_table_unknown_index
    (suffix line sample id1 : string) (more before rest : list string)
    (files : FS.t) (XXd : PyDict.t pyval) (outr : Counter.t)
    (used : PyDict.t string) :
  forallb known_row before = true ->
  line <> NL ->
  split "," (strip_newlines line) = sample :: id1 :: more ->
  PyDict.get X1dict id1 = None ->
  single_rows suffix (before ++ line :: rest) files XXd outr used =
  Raise (KeyError id1).
Proof.
  intros Hbefore Hline Hel Hkey. revert files XXd outr used.
  induction before as [|b before IH]; intros files X O U.
  - cbn [app single_rows].
    destruct (String.eqb_spec line NL) as [|_]; [contradiction|].
    rewrite Hel. cbn [bind list_item nth_error]. unfold PyDict.item.
    rewrite Hkey. reflexivity.
  - cbn [forallb] in Hbefore. apply andb_prop in Hbefore as [Hb Hrest].
    unfold known_row in Hb. apply andb_prop in Hb as [Hnl Hfields].
    apply negb_true_iff in Hnl.
    cbn [app single_rows]. rewrite Hnl.
    destruct (split "," (strip_newlines b)) as [|s0 [|i1 [|i2 m0]]];
      try discriminate.
    apply andb_prop in Hfields as [H1 H2].
    unfold PyDict.contains in H1, H2.
    cbn [bind list_item nth_error]. unfold PyDict.item.
    destruct (PyDict.get X1dict i1); [|discriminate].
    destruct (PyDict.get X2dict i2); [|discriminate].
    cbn [bind]. apply (IH Hrest).
Qed.

Lemma single_table_unknown_index_witness :
  single_rows ".fq" ["S1,1,1" ++ NL; "S2, 2,1" ++ NL] []
    PyDict.empty PyDict.empty PyDict.empty
  = Raise (KeyError " 2").
Proof.
  apply (single_table_unknown_index ".fq" ("S2, 2,1" ++ NL) "S2" " 2" ["1"]
           ["S1,1,1" ++ NL] []);
    [reflexivity|discriminate|reflexivity|reflexivity].
Defined.

(** X10.  [--outputall] without a sample table never reaches the main
    loop: nothing has bound [usedindexes] when the loop over the index
    combinations first reads it, and the script stops with [NameError]. *)
Theorem outputall_needs_sample_table (inputargs : args) (files : FS.t) :
  outputall inputargs = true ->
  truthy (indexlist inputargs) = false ->
  build_tables inputargs files = Raise (NameError "usedindexes").
Proof.
  intros Hall Hlist. unfold build_tables. rewrite Hlist, Hall.
  cbn [bind Bool.eqb]. apply outputall_rows_unbound. reflexivity.
Qed.

Lemma outputall_needs_sample_table_witness :
  build_tables (mkArgs "R1.fq" "R2.fq" "I1.fq" None None 2 true "fq") Single.files
  = Raise (NameError "usedindexes").
Proof.
  apply (outputall_needs_sample_table
           (mkArgs "R1.fq" "R2.fq" "I1.fq" None None 2 true "fq") Single.files);
    reflexivity.
Defined.



(** X12.  A payload read without quality stops the run: when the first or
    the third read of a four-read tuple has [qual = None] (a FASTA record, or
    a quality block cut short), building the output record adds [None] to a
    string and the iteration ends in [TypeError], before the barcode is
    looked up. *)
Theorem payload_without_quality
    (lev_distance : string -> string -> nat) (inputargs : args) (st : state)
    (record1 record2 record3 record4 : read) :
  truthy (index2 inputargs) = true ->
  qual record1 = None \/ qual record3 = None ->
  loop_body lev_distance inputargs st
    (Tuple4 record1 record2 record3 record4) = Raise TypeError.
Proof.
  intros Hdual Hnone. unfold loop_body, unpack, format_records.
  rewrite Hdual. cbn [bind].
  destruct Hnone as [H1|H3].
  - rewrite H1. reflexivity.
  - rewrite H3. destruct (qual record1); reflexivity.
Qed.

Lemma payload_without_quality_witness :
  loop_body Levenshtein.distance (Dual.inputargs 2) Dual.start
    (Tuple4 Dual.payload1 (Dual.index1_read "CCCCCC")
       (mkRead "read1" "TTGGCC" None) Dual.index2_read)
  = Raise TypeError.
Proof.
  apply (payload_without_quality Levenshtein.distance (Dual.inputargs 2));
    [reflexivity|right; reflexivity].
Defined.

(** X13.  Of the two index reads the loop uses the bases only, and of the
    second payload read the bases and the quality: the identifiers of
    streams 2, 3 and 4 and the qualities of the index reads never reach the
    outcome, so tuples whose reads do not belong together are processed
    like any other. *)
Theorem only_the_first_identifier_is_read
    (lev_distance : string -> string -> nat) (inputargs : args) (st : state)
    (record1 record2 record3 record4 record2' record3' record4' : read) :
  seq record2' = seq record2 ->
  seq record3' = seq record3 ->
  qual record3' = qual record3 ->
  seq record4' = seq record4 ->
  loop_body lev_distance inputargs st
    (Tuple4 record1 record2' record3' record4') =
  loop_body lev_distance inputargs st
    (Tuple4 record1 record2 record3 record4).
Proof.
  intros H2 H3 Hq3 H4. unfold loop_body, unpack, format_records, first_record.
  rewrite H2, H3, Hq3, H4. reflexivity.
Qed.

Lemma only_the_first_identifier_is_read_witness :
  loop_body Levenshtein.distance (Dual.inputargs 2) Dual.start
    (Tuple4 Dual.payload1 (mkRead "other2" "CCCCCC" None)
       (mkRead "other3" "TTGGCC" (Some "JJJJJJ")) (mkRead "other4" "AAAAAA" None))
  = loop_body Levenshtein.distance (Dual.inputargs 2) Dual.start
      (Dual.records "CCCCCC").
Proof.
  apply (only_the_first_identifier_is_read Levenshtein.distance
           (Dual.inputargs 2) Dual.start); reflexivity.
Defined.

(** X14.  The entries that [--outputall] adds to the table hold an open
    file where the loop expects a file name.  A read whose barcode is such
    an entry's key, or is within the threshold of that key alone, stops the
    run with [TypeError] at [open(...)]. *)
Theorem file_object_entry_stops_the_run
    (lev_distance : string -> string -> nat) (inputargs : args) (st : state)
    (record1 record2 record3 record4 : read) (qual1 qual3 : string)
    (XXd : PyDict.t pyval) (ndx path : string) :
  truthy (index2 inputargs) = true ->
  XXdict1 (names st) = Some XXd ->
  qual record1 = Some qual1 ->
  qual record3 = Some qual3 ->
  PyDict.get XXd ndx = Some (FileObj path) ->
  ndx = seq record4 ++ seq record2 \/
  (PyDict.get XXd (seq record4 ++ seq record2) = None /\
   fuzzy_matches lev_distance inputargs XXd (seq record4 ++ seq record2) = [ndx]) ->
  loop_body lev_distance inputargs st
    (Tuple4 record1 record2 record3 record4) = Raise TypeError.
Proof.
  intros Hdual Htab Hq1 Hq3 Hget [->|[Hnone Hm]].
  - unfold loop_body, unpack, format_records.
    rewrite Hdual, Hq1, Hq3, Htab. cbn [bind not_none lookup_name].
    unfold PyDict.contains, PyDict.item. rewrite Hget. reflexivity.
  - rewrite (loop_body_no_exact_key _ _ _ _ _ _ _ qual1 qual3 XXd) by assumption.
    cbn zeta. rewrite Hm. cbn [List.length Nat.eqb list_item nth_error bind].
    unfold PyDict.item. rewrite Hget. reflexivity.
Qed.

Lemma file_object_entry_stops_the_run_witness :
  loop_body Levenshtein.distance DualAll.inputargs DualAll.start DualAll.records
  = Raise TypeError.
Proof.
  apply (file_object_entry_stops_the_run Levenshtein.distance DualAll.inputargs
           DualAll.start Dual.payload1 (mkRead "read1" "CGTGAT" (Some "FFFFFF"))
           Dual.payload2 (mkRead "read1" "ATCACG" (Some "FFFFFF"))
           "IIIIII" "JJJJJJ" DualAll.XXd "ATCACGCGTGAT" "Indexes_1-1.fq").
  - reflexivity.
  - vm_compute. reflexivity.
  - reflexivity.
  - reflexivity.
  - vm_compute. reflexivity.
  - left. reflexivity.
Defined.

Section ReplaceFacts.

Variables old new : string.

Lemma replace_without_occurrence (s : string) :
  occurs old s = false -> replace_from old new s 0 = s.
Proof.
  induction s as [|c s IH]; intros H; [reflexivity|].
  cbn [occurs] in H. apply orb_false_elim in H as [Hp Ho].
  cbn [replace_from]. rewrite Hp. f_equal. auto.
Qed.

End ReplaceFacts.

Section SecondFileName.

(** No occurrence of "R1.f" begins in [sample] and ends in what follows
    when that begins with "_". *)
Lemma prefix_before_underscore (sample rest : string) :
  String.prefix "R1.f" (sample ++ String "_" rest) = String.prefix "R1.f" sample.
Proof.
  destruct sample as [|c1 [|c2 [|c3 [|c4 sample]]]]; cbn [append String.prefix].
  - reflexivity.
  - destruct (ascii_dec "R" c1); reflexivity.
  - destruct (ascii_dec "R" c1); [|reflexivity].
    destruct (ascii_dec "1" c2); reflexivity.
  - destruct (ascii_dec "R" c1); [|reflexivity].
    destruct (ascii_dec "1" c2); [|reflexivity].
    destruct (ascii_dec "." c3); reflexivity.
  - destruct (ascii_dec "R" c1); [|reflexivity].
    destruct (ascii_dec "1" c2); [|reflexivity].
    destruct (ascii_dec "." c3); [|reflexivity].
    destruct (ascii_dec "f" c4); [|reflexivity].
    destruct sample; reflexivity.
Qed.

Lemma replace_before_underscore (sample rest : string) :
  occurs "R1.f" sample = false ->
  replace_from "R1.f" "R2.f" (sample ++ String "_" rest) 0 =
  sample ++ replace_from "R1.f" "R2.f" (String "_" rest) 0.
Proof.
  induction sample as [|c sample IH]; intros H; [reflexivity|].
  cbn [occurs] in H. apply orb_false_elim in H as [Hp Ho].
  change (String c sample ++ String "_" rest)
    with (String c (sample ++ String "_" rest)).
  cbn [replace_from].
  change (String c (sample ++ String "_" rest))
    with (String c sample ++ String "_" rest).
  rewrite prefix_before_underscore, Hp.
  cbn [append]. f_equal. auto.
Qed.

End SecondFileName.

(** X15.  The name of a sample's second file.  The table holds
    [sample + "_R1" + suffix]; when the extension begins with "f" and
    neither the sample name nor the rest of the extension contains "R1.f",
    the name derived for the second payload read is
    [sample + "_R2" + suffix]. *)
Theorem second_file_name (sample extension rest : string) :
  extension = String "f" rest ->
  occurs "R1.f" sample = false ->
  occurs "R1.f" rest = false ->
  R2_path (sample ++ "_R1" ++ "." ++ extension) =
  sample ++ "_R2" ++ "." ++ extension.
Proof.
  intros -> Hsample Hrest. unfold R2_path, replace.
  change ("_R1" ++ "." ++ String "f" rest)
    with (String "_" ("R1.f" ++ rest)).
  rewrite replace_before_underscore by assumption. f_equal.
  cbn [replace_from append String.prefix String.length Nat.sub].
  destruct (ascii_dec "R" "_") as [E|_]; [discriminate E|].
  destruct (ascii_dec "R" "R") as [_|N]; [|now elim N].
  destruct (ascii_dec "1" "1") as [_|N]; [|now elim N].
  destruct (ascii_dec "." ".") as [_|N]; [|now elim N].
  destruct (ascii_dec "f" "f") as [_|N]; [|now elim N].
  replace (String.prefix "" rest) with true by (destruct rest; reflexivity).
  cbn [append]. do 5 f_equal.
  apply replace_without_occurrence. assumption.
Qed.

Lemma second_file_name_witness :
  R2_path ("Sample-A" ++ "_R1" ++ "." ++ "fastq") =
  "Sample-A" ++ "_R2" ++ "." ++ "fastq".
Proof.
  apply (second_file_name "Sample-A" "fastq" "astq"); reflexivity.
Defined.

(** X16.  A file name without "R1.f" is its own second name: the second
    payload record is then appended to the file that holds the first. *)
Theorem second_file_is_the_first (path : string) :
  occurs "R1.f" path = false -> R2_path path = path.
Proof. apply replace_without_occurrence. Qed.

Lemma second_file_is_the_first_witness :
  R2_path ("S1" ++ "_R1" ++ "." ++ "txt") = "S1" ++ "_R1" ++ "." ++ "txt".
Proof. apply (second_file_is_the_first "S1_R1.txt"). reflexivity. Defined.

Section ReverseComplement.

Import Bio.

Lemma complement_base_involutive (c : ascii) :
  negb (Ascii.eqb c "U") && negb (Ascii.eqb c "u") = true ->
  complement_base (complement_base c) = c.
Proof.
  destruct c as [[] [] [] [] [] [] [] []]; intros H;
    first [discriminate H | reflexivity].
Qed.

Lemma revcomp_onto_twice (x : string) :
  no_uracil x = true ->
  forall acc acc',
    revcomp_onto (revcomp_onto x acc) acc' = revcomp_onto acc (x ++ acc').
Proof.
  induction x as [|c x IH]; intros Hx acc acc'; [reflexivity|].
  unfold no_uracil in Hx. cbn [all_chars] in Hx.
  apply andb_prop in Hx as [Hc Hx].
  cbn [revcomp_onto]. rewrite (IH Hx). cbn [revcomp_onto].
  now rewrite (complement_base_involutive c Hc).
Qed.

End ReverseComplement.

(** X17.  [revcomp] undoes itself on a sequence without U: the index that
    the sample table gives for the first index read is recovered from the
    half of the compound index made from it. *)
Theorem revcomp_involutive (x : string) :
  no_uracil x = true -> revcomp (revcomp x) = x.
Proof.
  intros Hx. unfold revcomp, Bio.reverse_complement.
  rewrite (revcomp_onto_twice x Hx). cbn [Bio.revcomp_onto].
  apply append_empty_r.
Qed.

Lemma revcomp_involutive_witness : revcomp (revcomp "GGGGGC") = "GGGGGC".
Proof. apply (revcomp_involutive "GGGGGC"). reflexivity. Defined.

Section FileSystemFacts.

Implicit Types (files : FS.t) (p q text : string).











End FileSystemFacts.

Section WhereTheRecordsGo.

Variable lev_distance : string -> string -> nat.
Variable inputargs : args.


End WhereTheRecordsGo.





Section AppendOnly.

Variable lev_distance : string -> string -> nat.
Variable inputargs : args.


End AppendOnly.



Section BuildTablesCases.

(** The state [build_tables] returns is the one its first part leaves, or
    what the [--outputall] loop makes of it; and the first part leaves the
    initial state or the tables of one of the two readers. *)
Lemma build_tables_cases inputargs files st :
  build_tables inputargs files = Ok st ->
  exists st0,
    ((truthy (indexlist inputargs) = false /\ st0 = initial_state files) \/
     (exists X O U f1 f2 files',
         read_index_dual_file inputargs files = Ok (X, O, U, f1, f2, files') /\
         st0 = mkState
                 (mkTables (Some X) None (Some U) None (Some f1) (Some f2)
                    (Some (PyDict.keys O)))
                 (Some O) files' 0 0 0 0 []) \/
     (exists X O U f files',
         read_index_single_file inputargs files = Ok (X, O, U, f, files') /\
         st0 = mkState
                 (mkTables None (Some X) (Some U) (Some f) None None None)
                 (Some O) files' 0 0 0 0 [])) /\
    ((outputall inputargs = false /\ st = st0) \/
     (outputall inputargs = true /\
      outputall_rows ("." ++ extension inputargs) allXcombs st0 = Ok st)).
Proof.
  unfold build_tables. intros H.
  match type of H with
  | bind ?first _ = _ => destruct first as [st0| |] eqn:H0; try discriminate
  end.
  cbn [bind] in H. exists st0. split.
  - destruct (truthy (indexlist inputargs)).
    + destruct (truthy (index2 inputargs)).
      * destruct (read_index_dual_file inputargs files)
          as [[[[[[X O] U] f1] f2] files']| |]; try discriminate.
        cbn [bind] in H0. injection H0 as <-.
        right. left. exists X, O, U, f1, f2, files'. auto.
      * destruct (read_index_single_file inputargs files)
          as [[[[[X O] U] f] files']| |]; try discriminate.
        cbn [bind] in H0. injection H0 as <-.
        right. right. exists X, O, U, f, files'. auto.
    + injection H0 as <-. left. auto.
  - destruct (Bool.eqb (outputall inputargs) true) eqn:Hall.
    + right. split; [|exact H]. now apply Bool.eqb_prop in Hall.
    + injection H as <-. left. split; [|reflexivity].
      destruct (outputall inputargs); [discriminate Hall|reflexivity].
Qed.

Lemma outputall_rows_tallies suffix combs :
  forall st st',
    outputall_rows suffix combs st = Ok st' ->
    count st' = count st /\ dmpd_count st' = dmpd_count st /\
    fuzzy_count st' = fuzzy_count st /\ clash_count st' = clash_count st /\
    fuzzies st' = fuzzies st.
Proof.
  induction combs as [|x rest IH]; intros st st' Hrun; simpl in Hrun.
  - injection Hrun as <-. auto.
  - destruct (list_item (split "-" x) 0); try discriminate.
    cbn [bind] in Hrun.
    destruct (PyDict.item X1dict a); try discriminate. cbn [bind] in Hrun.
    destruct (list_item (split "-" x) 1); try discriminate.
    cbn [bind] in Hrun.
    destruct (PyDict.item X2dict a1); try discriminate. cbn [bind] in Hrun.
    destruct (lookup_name "usedindexes" (usedindexes (names st)));
      try discriminate. cbn [bind] in Hrun.
    destruct (negb _).
    + destruct (lookup_name "XXdict1" (XXdict1 (names st)));
        try discriminate. cbn [bind] in Hrun.
      destruct (lookup_name "outputreads" (outputreads st));
        try discriminate. cbn [bind] in Hrun.
      apply IH in Hrun. exact Hrun.
    + auto.
Qed.

Lemma build_tables_tallies inputargs files st :
  build_tables inputargs files = Ok st ->
  count st = 0%Z /\ dmpd_count st = 0%Z /\ fuzzy_count st = 0%Z /\
  clash_count st = 0%Z /\ fuzzies st = [].
Proof.
  intros H. apply build_tables_cases in H as (st0 & Hst0 & Hst).
  assert (H0 : count st0 = 0%Z /\ dmpd_count st0 = 0%Z /\ fuzzy_count st0 = 0%Z /\
               clash_count st0 = 0%Z /\ fuzzies st0 = []).
  { destruct Hst0 as [[_ ->]|[(X & O & U & f1 & f2 & files' & _ & ->)
                              |(X & O & U & f & files' & _ & ->)]]; cbn; auto. }
  destruct Hst as [[_ ->]|[_ Hall]]; [exact H0|].
  apply outputall_rows_tallies in Hall as (-> & -> & -> & -> & ->). exact H0.
Qed.

(** A sample's file is not called "Undetermined". *)
Lemma sample_file_not_undetermined (sample suffix : string) :
  sample ++ "_R1" ++ suffix <> "Undetermined".
Proof.
  intros E.
  apply (f_equal (all_chars (fun c => negb (Ascii.eqb c "_")))) in E.
  rewrite all_chars_append in E. cbn in E.
  rewrite andb_false_r in E. discriminate.
Qed.

Lemma dual_rows_paths suffix lines :
  forall X O U X' O' U',
    dual_rows suffix lines X O U = Ok (X', O', U') ->
    (forall p, In (Str p) (PyDict.values X) -> p <> "Undetermined") ->
    forall p, In (Str p) (PyDict.values X') -> p <> "Undetermined".
Proof.
  induction lines as [|line rest IH]; intros X O U X' O' U' Hrun HX;
    simpl in Hrun.
  - now injection Hrun as <- <- <-.
  - destruct (String.eqb line NL).
    + now injection Hrun as <- <- <-.
    + destruct (map strip (split "," line))
        as [|sample [|id1 [|id2 more]]] eqn:Hel;
        try discriminate.
      cbn [bind list_item nth_error] in Hrun.
      apply (IH _ _ _ _ _ _ Hrun).
      intros p Hp. apply in_values_set in Hp as [Hp|Hp]; [|auto].
      injection Hp as ->. apply sample_file_not_undetermined.
Qed.

Lemma outputall_rows_paths suffix combs :
  forall st st',
    outputall_rows suffix combs st = Ok st' ->
    sample_files_named st -> sample_files_named st'.
Proof.
  induction combs as [|x rest IH]; intros st st' Hrun Hst; simpl in Hrun.
  - now injection Hrun as <-.
  - destruct (list_item (split "-" x) 0); try discriminate.
    cbn [bind] in Hrun.
    destruct (PyDict.item X1dict a); try discriminate. cbn [bind] in Hrun.
    destruct (list_item (split "-" x) 1); try discriminate.
    cbn [bind] in Hrun.
    destruct (PyDict.item X2dict a1); try discriminate. cbn [bind] in Hrun.
    destruct (lookup_name "usedindexes" (usedindexes (names st)));
      try discriminate. cbn [bind] in Hrun.
    destruct (negb _).
    + destruct (XXdict1 (names st)) as [XXd|] eqn:Htab; try discriminate.
      cbn [bind lookup_name] in Hrun.
      destruct (lookup_name "outputreads" (outputreads st));
        try discriminate. cbn [bind] in Hrun.
      apply (IH _ _ Hrun).
      intros XXd' p HX Hp. cbn in HX. injection HX as <-.
      apply in_values_set in Hp as [Hp|Hp]; [discriminate|].
      exact (Hst XXd p Htab Hp).
    + eauto.
Qed.

Lemma build_tables_paths inputargs files st :
  build_tables inputargs files = Ok st -> sample_files_named st.
Proof.
  intros H. apply build_tables_cases in H as (st0 & Hst0 & Hst).
  assert (H0 : sample_files_named st0).
  { destruct Hst0 as [[_ ->]|[(X & O & U & f1 & f2 & files' & Hdual & ->)
                              |(X & O & U & f & files' & _ & ->)]];
      intros XXd p HX Hp; cbn in HX; try discriminate.
    injection HX as <-.
    apply read_index_dual_file_inv in Hdual
      as (path & lines & _ & _ & _ & _ & Hrows).
    revert p Hp. eapply dual_rows_paths; [exact Hrows|].
    intros p []. }
  destruct Hst as [[_ ->]|[_ Hall]]; [exact H0|].
  eapply outputall_rows_paths; eauto.
Qed.

Lemma build_tables_all_zero inputargs files st :
  startup_checks inputargs files = Ok tt ->
  build_tables inputargs files = Ok st ->
  exists c, outputreads st = Some c /\ all_zero c.
Proof.
  intros Hstart H. apply startup_checks_ok in Hstart as [Hmode _].
  apply build_tables_cases in H as (st0 & Hst0 & Hst).
  assert (Hbase : all_zero (PyDict.set PyDict.empty "Undetermined" 0%Z))
    by (apply all_zero_set; intros ? []).
  destruct Hst0 as [[Hlist ->]|Hread].
  - exfalso. destruct Hst as [[Hall _]|[_ Hall]].
    + destruct Hmode; congruence.
    + rewrite outputall_rows_unbound in Hall by reflexivity. discriminate.
  - assert (H0 : exists c, outputreads st0 = Some c /\ all_zero c /\
                           count st0 = 0%Z).
    { destruct Hread as [(X & O & U & f1 & f2 & files' & Hdual & ->)
                        |(X & O & U & f & files' & Hsingle & ->)].
      - exists O. cbn. repeat split.
        apply read_index_dual_file_inv in Hdual
          as (path & lines & _ & _ & _ & _ & Hrows).
        eapply dual_rows_zero; eauto.
      - exists O. cbn. repeat split.
        unfold read_index_single_file in Hsingle.
        destruct (indexlist inputargs) as [path|]; [|discriminate].
        cbn [bind not_none] in Hsingle.
        destruct (FS.read_lines _ path) as [lines| |]; try discriminate.
        cbn [bind] in Hsingle.
        destruct (single_rows _ lines _ _ _ _) as [[[[X' O'] U'] F]| |] eqn:Hrows;
          try discriminate.
        cbn [bind] in Hsingle. injection Hsingle as _ <- _ _ _.
        eapply single_rows_zero; eauto. }
    destruct H0 as (c & Hc & Hz & Hcount).
    destruct Hst as [[_ ->]|[_ Hall]]; [eauto|].
    destruct (outputall_rows_zero _ _ _ _ _ Hall Hc Hz Hcount) as (c' & ? & ? & _).
    eauto.
Qed.

End BuildTablesCases.

Section CounterLookups.

Lemma count_incr_same (c : Counter.t) k :
  Counter.count (Counter.incr c k) k = (Counter.count c k + 1)%Z.
Proof. unfold Counter.incr. unfold Counter.count at 1. now rewrite get_set_same. Qed.

Lemma count_incr_other (c : Counter.t) k k' :
  k <> k' -> Counter.count (Counter.incr c k) k' = Counter.count c k'.
Proof.
  intros Hne. unfold Counter.incr, Counter.count. now rewrite get_set_other.
Qed.

Lemma count_all_zero (c : Counter.t) k : all_zero c -> Counter.count c k = 0%Z.
Proof.
  intros Hc. unfold Counter.count.
  destruct (PyDict.get c k) as [n|] eqn:E; [|reflexivity].
  apply Hc. eapply get_in_values; eauto.
Qed.

End CounterLookups.

Section Tallies.

Variable lev_distance : string -> string -> nat.
Variable inputargs : args.

(** What one completed iteration does to the variables of the summary. *)
Lemma loop_body_tallies st records st' :
  loop_body lev_distance inputargs st records = Ok st' ->
  names st' = names st /\
  count st' = (count st + 1)%Z /\
  ((dmpd_count st' = (dmpd_count st + 1)%Z /\ clash_count st' = clash_count st /\
    ((fuzzy_count st' = fuzzy_count st /\ fuzzies st' = fuzzies st) \/
     (fuzzy_count st' = (fuzzy_count st + 1)%Z /\
      exists fq_id, fuzzies st' = (fuzzies st ++ [fq_id])%list)))
   \/
   (dmpd_count st' = dmpd_count st /\ fuzzy_count st' = fuzzy_count st /\
    fuzzies st' = fuzzies st /\
    (clash_count st' = clash_count st \/
     clash_count st' = (clash_count st + 1)%Z))).
Proof.
  intros Hrun.
  apply loop_body_inv in Hrun
    as (r1 & r2 & r3 & r4 & q1 & q3 & XXd & outr & _ & _ & _ & _ & _ & _
        & Hcases).
  cbn zeta in Hcases.
  destruct Hcases
    as [(dest & _ & ->)|[(ndx & dest & _ & _ & _ & ->)|(o1 & o2 & _ & _ & _ & _ & ->)]];
    cbn [names count dmpd_count fuzzy_count clash_count fuzzies];
    repeat split.
  - left. repeat split. left. auto.
  - left. repeat split. right. split; [reflexivity|]. now exists (name r1).
  - right. repeat split.
    destruct (Nat.ltb 1 _); auto.
Qed.

Lemma for_loop_tallies zipfqs :
  forall st st',
    for_loop lev_distance inputargs st zipfqs = Ok st' ->
    fuzzy_count st = Z.of_nat (List.length (fuzzies st)) ->
    (0 <= clash_count st)%Z ->
    (fuzzy_count st <= dmpd_count st)%Z ->
    (dmpd_count st + clash_count st <= count st)%Z ->
    fuzzy_count st' = Z.of_nat (List.length (fuzzies st')) /\
    (0 <= clash_count st')%Z /\
    (fuzzy_count st' <= dmpd_count st')%Z /\
    (dmpd_count st' + clash_count st' <= count st')%Z.
Proof.
  induction zipfqs as [|records rest IH]; intros st st' Hrun H1 H2 H3 H4;
    cbn [for_loop] in Hrun.
  - injection Hrun as <-. auto.
  - destruct (loop_body lev_distance inputargs st records) as [st1| |] eqn:Hbody;
      try discriminate.
    cbn [bind] in Hrun.
    apply loop_body_tallies in Hbody
      as (_ & Hc & [(Hd & Hcl & [[Hf Hfs]|[Hf (id & Hfs)]])
                   |(Hd & Hf & Hfs & [Hcl|Hcl])]);
      apply (IH _ _ Hrun); rewrite ?Hc, ?Hd, ?Hcl, ?Hf, ?Hfs;
      rewrite ?length_app; cbn [List.length]; lia.
Qed.

(** The reads counted under "Undetermined" are those not assigned. *)
Lemma loop_body_undetermined st records st' outr :
  loop_body lev_distance inputargs st records = Ok st' ->
  sample_files_named st ->
  outputreads st = Some outr ->
  exists outr',
    outputreads st' = Some outr' /\
    (Counter.count outr' "Undetermined" - Counter.count outr "Undetermined" =
     (count st' - count st) - (dmpd_count st' - dmpd_count st))%Z.
Proof.
  intros Hrun Hnamed Hout.
  apply loop_body_inv in Hrun
    as (r1 & r2 & r3 & r4 & q1 & q3 & XXd & outr0 & _ & _ & _ & _ & Htab & Hout0
        & Hcases).
  rewrite Hout in Hout0. injection Hout0 as <-.
  cbn zeta in Hcases.
  destruct Hcases
    as [(dest & Hget & ->)|[(ndx & dest & _ & _ & Hget & ->)|(o1 & o2 & _ & _ & _ & _ & ->)]];
    cbn [names outputreads count dmpd_count fuzzy_count clash_count fuzzies];
    eexists; (split; [reflexivity|]).
  - rewrite count_incr_other; [lia|].
    apply (Hnamed XXd dest Htab). eapply get_in_values; eauto.
  - rewrite count_incr_other; [lia|].
    apply (Hnamed XXd dest Htab). eapply get_in_values; eauto.
  - rewrite count_incr_same. lia.
Qed.

Lemma for_loop_undetermined zipfqs :
  forall st st' outr,
    for_loop lev_distance inputargs st zipfqs = Ok st' ->
    sample_files_named st ->
    outputreads st = Some outr ->
    exists outr',
      outputreads st' = Some outr' /\
      (Counter.count outr' "Undetermined" - Counter.count outr "Undetermined" =
       (count st' - count st) - (dmpd_count st' - dmpd_count st))%Z.
Proof.
  induction zipfqs as [|records rest IH]; intros st st' outr Hrun Hnamed Hout;
    cbn [for_loop] in Hrun.
  - injection Hrun as <-. exists outr. split; [assumption|lia].
  - destruct (loop_body lev_distance inputargs st records) as [st1| |] eqn:Hbody;
      try discriminate.
    cbn [bind] in Hrun.
    destruct (loop_body_undetermined _ _ _ _ Hbody Hnamed Hout) as (o1 & Ho1 & E1).
    assert (Hnamed1 : sample_files_named st1).
    { apply loop_body_tallies in Hbody as (Hn & _).
      unfold sample_files_named. rewrite Hn. exact Hnamed. }
    destruct (IH _ _ _ Hrun Hnamed1 Ho1) as (o2 & Ho2 & E2).
    exists o2. split; [assumption|lia].
Qed.

Lemma for_loop_count zipfqs :
  forall st st',
    for_loop lev_distance inputargs st zipfqs = Ok st' ->
    count st' = (count st + Z.of_nat (List.length zipfqs))%Z.
Proof.
  induction zipfqs as [|records rest IH]; intros st st' Hrun;
    cbn [for_loop] in Hrun.
  - injection Hrun as <-. cbn. lia.
  - destruct (loop_body lev_distance inputargs st records) as [st1| |] eqn:Hbody;
      try discriminate.
    cbn [bind] in Hrun.
    apply loop_body_tallies in Hbody as (_ & Hc & _).
    rewrite (IH _ _ Hrun), Hc. cbn [List.length]. lia.
Qed.

End Tallies.

Section Zip.

Lemma length_zip3 fq1 :
  forall fq2 fq3, List.length (zip3 fq1 fq2 fq3) = shortest3 fq1 fq2 fq3.
Proof.
  unfold shortest3.
  induction fq1 as [|r1 fq1 IH]; intros [|r2 fq2] [|r3 fq3]; cbn;
    rewrite ?Nat.min_0_r; auto.
Qed.

Lemma length_zip4 fq1 :
  forall fq2 fq3 fq4,
    List.length (zip4 fq1 fq2 fq3 fq4) = shortest4 fq1 fq2 fq3 fq4.
Proof.
  unfold shortest4, shortest3.
  induction fq1 as [|r1 fq1 IH]; intros [|r2 fq2] [|r3 fq3] [|r4 fq4]; cbn;
    rewrite ?Nat.min_0_r; auto.
Qed.

Lemma zip3_firstn fq1 :
  forall fq2 fq3,
    zip3 (firstn (shortest3 fq1 fq2 fq3) fq1) (firstn (shortest3 fq1 fq2 fq3) fq2)
      (firstn (shortest3 fq1 fq2 fq3) fq3) = zip3 fq1 fq2 fq3.
Proof.
  unfold shortest3.
  induction fq1 as [|r1 fq1 IH]; intros [|r2 fq2] [|r3 fq3]; cbn;
    rewrite ?Nat.min_0_r; cbn; auto.
  now rewrite IH.
Qed.

Lemma zip4_firstn fq1 :
  forall fq2 fq3 fq4,
    zip4 (firstn (shortest4 fq1 fq2 fq3 fq4) fq1)
      (firstn (shortest4 fq1 fq2 fq3 fq4) fq2)
      (firstn (shortest4 fq1 fq2 fq3 fq4) fq3)
      (firstn (shortest4 fq1 fq2 fq3 fq4) fq4) = zip4 fq1 fq2 fq3 fq4.
Proof.
  unfold shortest4, shortest3.
  induction fq1 as [|r1 fq1 IH]; intros [|r2 fq2] [|r3 fq3] [|r4 fq4]; cbn;
    rewrite ?Nat.min_0_r; cbn; auto.
  now rewrite IH.
Qed.

End Zip.

Section WholeRun.

Variable lev_distance : string -> string -> nat.

(** A completed run is a passed start-up check, a built table, and a
    completed loop over some tuples. *)
Lemma demultiplex_inv inputargs files st :
  demultiplex lev_distance inputargs files = Ok st ->
  exists st0 zipfqs,
    startup_checks inputargs files = Ok tt /\
    build_tables inputargs files = Ok st0 /\
    for_loop lev_distance inputargs st0 zipfqs = Ok st.
Proof.
  unfold demultiplex. intros H.
  destruct (startup_checks inputargs files) as [[]| |] eqn:Hs; try discriminate.
  cbn [bind] in H.
  destruct (build_tables inputargs files) as [st0| |] eqn:Hb; try discriminate.
  cbn [bind] in H.
  destruct (readfq (fs st0) (read1 inputargs)) as [fq1| |]; try discriminate.
  cbn [bind] in H.
  destruct (readfq (fs st0) (index1 inputargs)) as [fq2| |]; try discriminate.
  cbn [bind] in H.
  destruct (readfq (fs st0) (read2 inputargs)) as [fq3| |]; try discriminate.
  cbn [bind] in H.
  match type of H with
  | bind ?fourth _ = _ => destruct fourth as [fq4| |]; try discriminate
  end.
  cbn [bind] in H. unfold main_loop in H.
  eexists st0, _. repeat split; eassumption.
Qed.

End WholeRun.

(** X21.  At the end of a completed run the counter "Undetermined" holds
    the reads that were not assigned to a sample: the number of tuples read
    less the number demultiplexed. *)
Theorem undetermined_counts_the_unassigned
    (lev_distance : string -> string -> nat) (inputargs : args)
    (files : FS.t) (st : state) :
  demultiplex lev_distance inputargs files = Ok st ->
  exists outr,
    outputreads st = Some outr /\
    Counter.count outr "Undetermined" = (count st - dmpd_count st)%Z.
Proof.
  intros H.
  apply demultiplex_inv in H as (st0 & zipfqs & Hstart & Hbuild & Hloop).
  destruct (build_tables_all_zero _ _ _ Hstart Hbuild) as (c & Hc & Hz).
  pose proof (build_tables_tallies _ _ _ Hbuild) as (Hcount & Hdmpd & _).
  pose proof (build_tables_paths _ _ _ Hbuild) as Hnamed.
  destruct (for_loop_undetermined _ _ _ _ _ _ Hloop Hnamed Hc) as (outr & Hout & E).
  exists outr. split; [assumption|].
  rewrite (count_all_zero c "Undetermined" Hz), Hcount, Hdmpd in E. lia.
Qed.

(** The one read of the example is within the threshold of both samples
    and is counted under "Undetermined". *)
Lemma undetermined_counts_the_unassigned_witness :
  exists outr,
    outputreads DualRun.finish = Some outr /\
    Counter.count outr "Undetermined" =
    (count DualRun.finish - dmpd_count DualRun.finish)%Z.
Proof.
  apply (undetermined_counts_the_unassigned Levenshtein.distance
           (Dual.inputargs 2) Dual.files DualRun.finish).
  vm_compute. reflexivity.
Defined.

(** X22.  The numbers of the summary fit together at the end of every
    completed run: one identifier is logged per fuzzy match, fuzzy matches
    are among the demultiplexed reads, and demultiplexed reads and clashes
    together do not exceed the reads counted. *)
Theorem summary_tallies_fit
    (lev_distance : string -> string -> nat) (inputargs : args)
    (files : FS.t) (st : state) :
  demultiplex lev_distance inputargs files = Ok st ->
  fuzzy_count st = Z.of_nat (List.length (fuzzies st)) /\
  (0 <= clash_count st)%Z /\
  (fuzzy_count st <= dmpd_count st)%Z /\
  (dmpd_count st + clash_count st <= count st)%Z.
Proof.
  intros H.
  apply demultiplex_inv in H as (st0 & zipfqs & _ & Hbuild & Hloop).
  pose proof (build_tables_tallies _ _ _ Hbuild) as (Hc & Hd & Hf & Hcl & Hfs).
  apply (for_loop_tallies _ _ _ _ _ Hloop);
    rewrite ?Hc, ?Hd, ?Hf, ?Hcl, ?Hfs; cbn; lia.
Qed.

Lemma summary_tallies_fit_witness :
  fuzzy_count DualRun.finish = Z.of_nat (List.length (fuzzies DualRun.finish)) /\
  (0 <= clash_count DualRun.finish)%Z /\
  (fuzzy_count DualRun.finish <= dmpd_count DualRun.finish)%Z /\
  (dmpd_count DualRun.finish + clash_count DualRun.finish
   <= count DualRun.finish)%Z.
Proof.
  apply (summary_tallies_fit Levenshtein.distance (Dual.inputargs 2)
           Dual.files DualRun.finish).
  vm_compute. reflexivity.
Defined.

(** X23.  The loop runs once per tuple of [zip], that is as many times as
    the shortest of the streams it zips has reads: a completed loop has
    raised [count] by that number. *)
Theorem count_is_the_shortest_stream
    (lev_distance : string -> string -> nat) (inputargs : args)
    (st st' : state) (fq1 fq2 fq3 fq4 : list read) :
  main_loop lev_distance inputargs st fq1 fq2 fq3 fq4 = Ok st' ->
  count st' = (count st + Z.of_nat (tuples_read inputargs fq1 fq2 fq3 fq4))%Z.
Proof.
  unfold main_loop, tuples_read. intros H.
  apply for_loop_count in H. rewrite H.
  destruct (truthy (index2 inputargs));
    [rewrite length_zip4|rewrite length_zip3]; reflexivity.
Qed.

(** Two complete tuples and a third payload read without partners. *)
Lemma count_is_the_shortest_stream_witness :
  count (state_or Dual.start
           (main_loop Levenshtein.distance (Dual.inputargs 2) Dual.start
              [Dual.payload1; Dual.payload1; Dual.payload1]
              [Dual.index1_read "CCCCCC"; Dual.index1_read "GGGGGG"]
              [Dual.payload2; Dual.payload2; Dual.payload2]
              [Dual.index2_read; Dual.index2_read]))
  = (count Dual.start +
     Z.of_nat (tuples_read (Dual.inputargs 2)
                 [Dual.payload1; Dual.payload1; Dual.payload1]
                 [Dual.index1_read "CCCCCC"; Dual.index1_read "GGGGGG"]
                 [Dual.payload2; Dual.payload2; Dual.payload2]
                 [Dual.index2_read; Dual.index2_read]))%Z.
Proof.
  apply (count_is_the_shortest_stream Levenshtein.distance (Dual.inputargs 2)
           Dual.start).
  vm_compute. reflexivity.
Defined.

(** X24.  Reads beyond the end of the shortest stream are never looked
    at: the loop does on the streams what it does on the streams cut to
    the length of the shortest, whether it completes or stops. *)
Theorem surplus_reads_are_ignored
    (lev_distance : string -> string -> nat) (inputargs : args)
    (st : state) (fq1 fq2 fq3 fq4 : list read) :
  main_loop lev_distance inputargs st fq1 fq2 fq3 fq4 =
  main_loop lev_distance inputargs st
    (firstn (tuples_read inputargs fq1 fq2 fq3 fq4) fq1)
    (firstn (tuples_read inputargs fq1 fq2 fq3 fq4) fq2)
    (firstn (tuples_read inputargs fq1 fq2 fq3 fq4) fq3)
    (firstn (tuples_read inputargs fq1 fq2 fq3 fq4) fq4).
Proof.
  unfold main_loop, tuples_read.
  destruct (truthy (index2 inputargs));
    [rewrite zip4_firstn|rewrite zip3_firstn]; reflexivity.
Qed.

Section AfterTheLoop.

Lemma open_read_readable files x :
  readable files x = true -> exists path, x = Str path /\ open_read files x = Ok path.
Proof.
  destruct x as [path|f]; cbn [readable open_read]; [|discriminate].
  intros ->. eauto.
Qed.

Lemma open_read_unreadable files x :
  readable files x = false -> open_read files x = Raise (open_error x).
Proof.
  destruct x as [path|f]; cbn [readable open_read open_error]; [|reflexivity].
  now intros ->.
Qed.

Lemma reopen_outputs_stops files before x after :
  forallb (readable files) before = true ->
  readable files x = false ->
  reopen_outputs files (before ++ x :: after)%list = Raise (open_error x).
Proof.
  intros Hbefore Hx. induction before as [|v before IH]; cbn [app reopen_outputs].
  - now rewrite (open_read_unreadable files x Hx).
  - cbn [forallb] in Hbefore. apply andb_prop in Hbefore as [Hv Hbefore].
    destruct (open_read_readable files v Hv) as (path & -> & Hopen).
    rewrite Hopen. cbn [bind]. unfold stat.
    cbn [readable] in Hv. rewrite Hv. cbn [bind]. auto.
Qed.

Lemma reopen_outputs_ok files values :
  reopen_outputs files values = Ok tt <-> forallb (readable files) values = true.
Proof.
  induction values as [|v values IH]; cbn [reopen_outputs forallb].
  - tauto.
  - destruct (readable files v) eqn:Hv.
    + destruct (open_read_readable files v Hv) as (path & -> & Hopen).
      rewrite Hopen. cbn [bind]. unfold stat.
      cbn [readable] in Hv. rewrite Hv. cbn [bind andb]. exact IH.
    + rewrite (open_read_unreadable files v Hv). cbn [bind andb].
      split; discriminate.
Qed.

End AfterTheLoop.

(** X25.  After the loop every value of the table is opened for reading.
    The first one that is not the name of an existing file stops the run:
    with [FileNotFoundError] when it is a name, as for a sample that took
    no read and so has no file, and with [TypeError] when it is one of the
    file objects of [--output-all]. *)
Theorem first_missing_output_stops_the_run
    (st : state) (XXd : PyDict.t pyval) (before after : list pyval) (x : pyval) :
  XXdict1 (names st) = Some XXd ->
  PyDict.values XXd = (before ++ x :: after)%list ->
  forallb (readable (fs st)) before = true ->
  readable (fs st) x = false ->
  close_files st = Raise (open_error x).
Proof.
  intros Htab Hvalues Hbefore Hx. unfold close_files.
  rewrite Htab. cbn [bind lookup_name]. rewrite Hvalues.
  now rewrite (reopen_outputs_stops _ _ _ _ Hbefore Hx).
Qed.

(** In the example S2 takes none of the four reads. *)
Lemma first_missing_output_stops_the_run_witness :
  close_files Dual.finish = Raise (FileNotFoundError "S2_R1.fq").
Proof.
  apply (first_missing_output_stops_the_run Dual.finish Dual.XXd
           [Str "S1_R1.fq"] [] (Str "S2_R1.fq")).
  - reflexivity.
  - reflexivity.
  - vm_compute. reflexivity.
  - vm_compute. reflexivity.
Defined.

(** X26.  The closing step completes exactly when every value of the
    table names an existing file and the two files of undetermined reads
    are bound and exist. *)
Theorem close_files_completes (st : state) :
  close_files st = Ok tt <->
  exists XXd out1 out2,
    XXdict1 (names st) = Some XXd /\
    forallb (readable (fs st)) (PyDict.values XXd) = true /\
    failed1 (names st) = Some out1 /\
    failed2 (names st) = Some out2 /\
    PyDict.contains (fs st) out1 = true /\
    PyDict.contains (fs st) out2 = true.
Proof.
  unfold close_files, stat. split.
  - intros H.
    destruct (XXdict1 (names st)) as [XXd|]; [|discriminate].
    cbn [bind lookup_name] in H.
    destruct (reopen_outputs (fs st) (PyDict.values XXd)) as [[]| |] eqn:Hre;
      try discriminate.
    cbn [bind] in H. apply reopen_outputs_ok in Hre.
    destruct (failed1 (names st)) as [out1|]; [|discriminate].
    destruct (failed2 (names st)) as [out2|]; [|discriminate].
    cbn [bind lookup_name] in H.
    destruct (PyDict.contains (fs st) out1) eqn:H1; [|discriminate].
    cbn [bind] in H.
    destruct (PyDict.contains (fs st) out2) eqn:H2; [|discriminate].
    exists XXd, out1, out2. repeat split; auto.
  - intros (XXd & out1 & out2 & -> & Hre & -> & -> & H1 & H2).
    cbn [bind lookup_name]. apply reopen_outputs_ok in Hre. rewrite Hre.
    cbn [bind]. rewrite H1. cbn [bind]. now rewrite H2.
Qed.

Section CountedKeys.

Variable lev_distance : string -> string -> nat.
Variable inputargs : args.

Lemma loop_body_other_keys st records st' outr k :
  loop_body lev_distance inputargs st records = Ok st' ->
  outputreads st = Some outr ->
  k <> "Undetermined" ->
  (forall XXd, XXdict1 (names st) = Some XXd -> ~ In (Str k) (PyDict.values XXd)) ->
  names st' = names st /\
  exists outr',
    outputreads st' = Some outr' /\ Counter.count outr' k = Counter.count outr k.
Proof.
  intros Hrun Hout Hk Hfree.
  apply loop_body_inv in Hrun
    as (r1 & r2 & r3 & r4 & q1 & q3 & XXd & outr0 & _ & _ & _ & _ & Htab & Hout0
        & Hcases).
  rewrite Hout in Hout0. injection Hout0 as <-.
  specialize (Hfree XXd Htab). cbn zeta in Hcases.
  destruct Hcases
    as [(dest & Hget & ->)|[(ndx & dest & _ & _ & Hget & ->)|(o1 & o2 & _ & _ & _ & _ & ->)]];
    cbn [names outputreads]; (split; [reflexivity|]); eexists;
    (split; [reflexivity|]); apply count_incr_other.
  - intros ->. apply Hfree. eapply get_in_values; eauto.
  - intros ->. apply Hfree. eapply get_in_values; eauto.
  - congruence.
Qed.

End CountedKeys.

(** X27.  The loop counts a read under the file name its table entry
    holds, or under "Undetermined": the count of any other key of
    [outputreads], a sample name among them, is after the loop what it was
    before. *)
Theorem reads_are_counted_under_file_names
    (lev_distance : string -> string -> nat) (inputargs : args)
    (zipfqs : list read_tuple) (st st' : state) (outr outr' : Counter.t)
    (k : string) :
  for_loop lev_distance inputargs st zipfqs = Ok st' ->
  outputreads st = Some outr ->
  outputreads st' = Some outr' ->
  k <> "Undetermined" ->
  (forall XXd, XXdict1 (names st) = Some XXd -> ~ In (Str k) (PyDict.values XXd)) ->
  Counter.count outr' k = Counter.count outr k.
Proof.
  revert st outr. induction zipfqs as [|records rest IH];
    intros st outr Hrun Hout Hout' Hk Hfree; cbn [for_loop] in Hrun.
  - injection Hrun as <-. congruence.
  - destruct (loop_body lev_distance inputargs st records) as [st1| |] eqn:Hbody;
      try discriminate.
    cbn [bind] in Hrun.
    destruct (loop_body_other_keys _ _ _ _ _ _ _ Hbody Hout Hk Hfree)
      as (Hnames & o1 & Ho1 & <-).
    apply (IH st1 o1 Hrun Ho1 Hout' Hk). rewrite Hnames. exact Hfree.
Qed.

(** Two of the four reads of the example go to S1, and the count under
    "S1" is still 0. *)
Lemma reads_are_counted_under_file_names_witness :
  Counter.count
    [("Undetermined", 2%Z); ("S1", 0%Z); ("S2", 0%Z); ("S1_R1.fq", 2%Z)] "S1"
  = Counter.count Dual.outr "S1".
Proof.
  apply (reads_are_counted_under_file_names Levenshtein.distance
           (Dual.inputargs 2) Dual.tuples Dual.start Dual.finish).
  - reflexivity.
  - reflexivity.
  - vm_compute. reflexivity.
  - discriminate.
  - intros XXd HX. vm_compute in HX. injection HX as <-.
    intros [H|[H|[]]]; discriminate H.
Defined.
